(** * Straight-line depreciation engine: a shallow embedding of [app.py]

    The development follows [src/app.py] (the Flask application) and, where
    the two scripts under [src/tmp/] differ from it, [src/tmp/main.py] and
    [src/tmp/main1.py].

    Modelling conventions.
    - Python numbers ([cost], [carcass_value], [remaining_amount]) are exact
      rationals [Q], compared with [Qeq]/[Qle]; this is the arithmetic the
      code performs on [int]/[Fraction] operands, and the real-number
      reading of its [float] arithmetic (binary rounding error is outside
      the model).  [life_years] and calendar years are Python [int]s: [Z].
    - [datetime.date] is a year/month/day triple over [Z], ordered
      lexicographically; the library's MINYEAR/MAXYEAR range is outside the
      model.
    - [str] values are sequences of code points below 256 ([string]).
    - An exception is an [outcome] of [Raise]; a call that returns gives
      [Return] with the returned value and, for a method that assigns to
      [self], the object after the call.
    - [generate_depreciation_report] iterates over a list of object
      references; objects live in a [store] so that one object listed twice
      is scheduled on its already-mutated state.
    - The debug [print]s are not modelled; the CSV file written at the end
      is the [ReportFile] result carrying the rows written. *)

From Stdlib Require Import ZArith QArith Qround Qminmax Lqa Lia.
From Stdlib Require Import List Bool String Ascii.
Import ListNotations.

Local Open Scope Q_scope.

(** ** Outcomes of a call *)

Inductive exn : Type :=
| ZeroDivisionError
| AttributeError
| TypeError.

Inductive outcome (A : Type) : Type :=
| Return (v : A)
| Raise (e : exn).

Arguments Return {A} v.
Arguments Raise {A} e.

Definition bind {A B : Type} (m : outcome A) (k : A -> outcome B) : outcome B :=
  match m with
  | Return v => k v
  | Raise e => Raise e
  end.

Notation "x <- m ;; k" := (bind m (fun x => k))
  (at level 61, m at next level, right associativity).

(** ** Numbers *)

(** [a < b] as Python evaluates it on numbers. *)
Definition Qltb (a b : Q) : bool := negb (Qle_bool b a).

(** Python's two-argument [min]: the first argument unless the second is
    strictly smaller. *)
Definition py_min (a b : Q) : Q := if Qltb b a then b else a.

(** [round(y)] to an integer: ties go to the even neighbour. *)
Definition round_half_even (y : Q) : Z :=
  let f := Qfloor y in
  match Qcompare (y - inject_Z f) (1 # 2) with
  | Lt => f
  | Gt => (f + 1)%Z
  | Eq => if Z.even f then f else (f + 1)%Z
  end.

(** [round(x, 2)]. *)
Definition py_round2 (x : Q) : Q :=
  inject_Z (round_half_even (x * 100)) / 100.

(** [range(start, stop)]. *)
Definition py_range (start stop : Z) : list Z :=
  map (fun i => (start + Z.of_nat i)%Z) (seq 0 (Z.to_nat (stop - start))).


(** ** Dates *)

Record date : Type := mkdate { year : Z; month : Z; day : Z }.

Definition date_ltb (d1 d2 : date) : bool :=
  (year d1 <? year d2)%Z
  || ((year d1 =? year d2)%Z
      && ((month d1 <? month d2)%Z
          || ((month d1 =? month d2)%Z && (day d1 <? day d2)%Z))).

(** [d1 < d2] where [d1] may be [None]: comparing [None] with a date raises
    [TypeError]. *)
Definition py_date_lt (d1 : option date) (d2 : date) : outcome bool :=
  match d1 with
  | Some d => Return (date_ltb d d2)
  | None => Raise TypeError
  end.

Definition py_date_gt (d1 : option date) (d2 : date) : outcome bool :=
  match d1 with
  | Some d => Return (date_ltb d2 d)
  | None => Raise TypeError
  end.

(** ** Strings *)

Local Open Scope string_scope.

(** [str.isspace] on one code point below 256. *)
Definition is_space (c : ascii) : bool :=
  let n := nat_of_ascii c in
  ((9 <=? n) && (n <=? 13) || (28 <=? n) && (n <=? 32)
   || (n =? 133) || (n =? 160))%nat.

Definition lower_char (c : ascii) : ascii :=
  let n := nat_of_ascii c in
  if ((65 <=? n) && (n <=? 90)
      || (192 <=? n) && (n <=? 222) && negb (n =? 215))%nat
  then ascii_of_nat (n + 32)
  else c.

(** [str.lower]. *)
Fixpoint lower (s : string) : string :=
  match s with
  | EmptyString => EmptyString
  | String c s' => String (lower_char c) (lower s')
  end.

Fixpoint lstrip (s : string) : string :=
  match s with
  | EmptyString => EmptyString
  | String c s' => if is_space c then lstrip s' else s
  end.

Fixpoint rstrip (s : string) : string :=
  match s with
  | EmptyString => EmptyString
  | String c s' =>
      match rstrip s' with
      | EmptyString => if is_space c then EmptyString else String c EmptyString
      | r => String c r
      end
  end.

(** [str.strip()]. *)
Definition strip (s : string) : string := rstrip (lstrip s).

(** Truth value of a [str]. *)
Definition str_truthy (s : string) : bool :=
  match s with
  | EmptyString => false
  | String _ _ => true
  end.

(** [s] occurs in [msg]. *)
Definition mentions (msg s : string) : Prop :=
  exists pre post : string, msg = pre ++ s ++ post.

(** ** The [Asset] class *)

Record Asset : Type := mkAsset {
  item_no : string;
  item_type : string;
  purchase_date : option date;
  cost : Q;
  carcass_value : Q;
  life_years : Z;
  last_depr_date : option date;
  remaining_amount : Q
}.

(** [Asset.__init__]. *)
Definition Asset_init (item_no item_type : string) (purchase_date : option date)
    (cost carcass_value : Q) (life_years : Z)
    (last_depr_date : option date) (remaining_amount : option Q) : Asset :=
  {| item_no := item_no;
     item_type := item_type;
     purchase_date := purchase_date;
     cost := cost;
     carcass_value := carcass_value;
     life_years := life_years;
     last_depr_date :=
       match last_depr_date with
       | Some d => Some d
       | None => purchase_date
       end;
     remaining_amount :=
       match remaining_amount with
       | Some r => r
       | None => cost
       end |}.

Definition set_remaining_amount (a : Asset) (r : Q) : Asset :=
  {| item_no := item_no a;
     item_type := item_type a;
     purchase_date := purchase_date a;
     cost := cost a;
     carcass_value := carcass_value a;
     life_years := life_years a;
     last_depr_date := last_depr_date a;
     remaining_amount := r |}.

Definition set_last_depr_date (a : Asset) (d : date) : Asset :=
  {| item_no := item_no a;
     item_type := item_type a;
     purchase_date := purchase_date a;
     cost := cost a;
     carcass_value := carcass_value a;
     life_years := life_years a;
     last_depr_date := Some d;
     remaining_amount := remaining_amount a |}.

Definition set_life_years (a : Asset) (n : Z) : Asset :=
  {| item_no := item_no a;
     item_type := item_type a;
     purchase_date := purchase_date a;
     cost := cost a;
     carcass_value := carcass_value a;
     life_years := n;
     last_depr_date := last_depr_date a;
     remaining_amount := remaining_amount a |}.

(** The invariant [__init__] establishes: an object with a purchase date has
    a last depreciation date. *)
Definition wf_asset (a : Asset) : Prop :=
  purchase_date a <> None -> last_depr_date a <> None.

(** [Asset.validate]. *)
Definition validate (a : Asset) : bool * option string :=
  if negb (item_type a =? "FA") then
    (false, Some ("Skipping item " ++ item_no a ++ ": Not a Fixed Asset (FA)."))
  else
    match purchase_date a with
    | None =>
        (false, Some ("Error: Missing purchase date for item " ++ item_no a ++ "."))
    | Some _ => (true, None)
    end.

(** [Asset.straight_line_depreciation]. *)
Definition straight_line_depreciation (a : Asset) : outcome Q :=
  if (life_years a =? 0)%Z then Raise ZeroDivisionError
  else Return ((cost a - carcass_value a) / inject_Z (life_years a))%Q.

(** One line of the report. *)
Record ReportRow : Type := mkRow {
  r_item_no : string;
  r_purchase_date : option date;
  r_cost : Q;
  r_carcass_value : Q;
  r_life_years : Z;
  r_year : Z;
  r_depreciation : Q;
  r_remaining_amount : Q;
  r_last_depr_date : date
}.

Section Schedule.

(** What is applied to the two amounts when a row is built: [round(_, 2)]
    in [app.py] and [main1.py], nothing in [main.py]. *)
Variable rnd : Q -> Q.

(** The body of the [for year in range(...)] loop, with its [break]. *)
Fixpoint depreciation_loop (depreciation_per_year : Q) (years : list Z)
    (a : Asset) (report_data : list ReportRow) : list ReportRow * Asset :=
  match years with
  | [] => (report_data, a)
  | y :: rest =>
      if Qle_bool (remaining_amount a) (carcass_value a) then (report_data, a)
      else
        let depreciation_value :=
          py_min depreciation_per_year
                 (remaining_amount a - carcass_value a)%Q in
        let a1 :=
          set_remaining_amount a (remaining_amount a - depreciation_value)%Q in
        let a2 := set_last_depr_date a1 (mkdate y 12 31) in
        depreciation_loop depreciation_per_year rest a2
          (report_data ++
             [ {| r_item_no := item_no a2;
                  r_purchase_date := purchase_date a2;
                  r_cost := cost a2;
                  r_carcass_value := carcass_value a2;
                  r_life_years := life_years a2;
                  r_year := y;
                  r_depreciation := rnd depreciation_value;
                  r_remaining_amount := rnd (remaining_amount a2);
                  r_last_depr_date := mkdate y 12 31 |} ])
  end.

(** [Asset.calculate_depreciation]: [None] for an asset that fails
    [validate], otherwise the list of rows; with the object after the
    call. *)
Definition calculate_depreciation_with (a : Asset)
    : outcome (option (list ReportRow) * Asset) :=
  if negb (fst (validate a)) then Return (None, a)
  else
    depreciation_per_year <- straight_line_depreciation a ;;
    match last_depr_date a with
    | None => Raise AttributeError
    | Some d =>
        let start_year := year d in
        let '(report_data, a') :=
          depreciation_loop depreciation_per_year
            (py_range start_year (start_year + life_years a)) a [] in
        Return (Some report_data, a')
    end.

End Schedule.

(** [app.py] (and [main1.py]): amounts are rounded when a row is built. *)
Definition calculate_depreciation : Asset -> outcome (option (list ReportRow) * Asset) :=
  calculate_depreciation_with py_round2.

Module Main.
(** [tmp/main.py]: the rows carry the amounts as computed. *)
Definition calculate_depreciation : Asset -> outcome (option (list ReportRow) * Asset) :=
  calculate_depreciation_with (fun x => x).
End Main.

(** ** Report assembly ([app.py]) *)

(** Objects are addressed by reference; the store gives the current state of
    each. *)
Definition store : Type := nat -> Asset.

Definition store_set (s : store) (i : nat) (a : Asset) : store :=
  fun j => if Nat.eqb j i then a else s j.

(** [if item_no and item_no.strip():] *)
Definition item_filter_given (item_no : option string) : bool :=
  match item_no with
  | Some f => str_truthy f && str_truthy (strip f)
  | None => false
  end.

(** [asset.item_no.strip().lower() != item_no.strip().lower()] *)
Definition item_mismatch (asset : Asset) (f : string) : bool :=
  negb (lower (strip (item_no asset)) =? lower (strip f)).

(** The item filter reaches its [continue]. *)
Definition item_filter_skips (item_no : option string) (asset : Asset) : bool :=
  match item_no with
  | Some f => item_filter_given item_no && item_mismatch asset f
  | None => false
  end.

(** The date filter reaches one of its two [continue]s.  Each comparison is
    evaluated only when its bound is given. *)
Definition date_filter_skips (purchase_date_range : option (option date * option date))
    (asset : Asset) : outcome bool :=
  match purchase_date_range with
  | None => Return false
  | Some (start_date, end_date) =>
      before <- match start_date with
                | Some sd => py_date_lt (purchase_date asset) sd
                | None => Return false
                end ;;
      if (before : bool) then Return true
      else
        match end_date with
        | Some ed => py_date_gt (purchase_date asset) ed
        | None => Return false
        end
  end.

(** [if data: report_data.extend(data)] *)
Definition extend_if (report_data : list ReportRow) (data : option (list ReportRow))
    : list ReportRow :=
  match data with
  | Some (r :: l) => report_data ++ r :: l
  | _ => report_data
  end.

(** The [for asset in assets] loop.  When a call raises, the exception
    leaves the function and the rows collected so far are dropped. *)
Fixpoint report_loop (item_no : option string)
    (purchase_date_range : option (option date * option date))
    (assets : list nat) (s : store) (report_data : list ReportRow)
    : outcome (list ReportRow * store) :=
  match assets with
  | [] => Return (report_data, s)
  | i :: rest =>
      let asset := s i in
      if item_filter_skips item_no asset then
        report_loop item_no purchase_date_range rest s report_data
      else
        skip <- date_filter_skips purchase_date_range asset ;;
        if (skip : bool) then
          report_loop item_no purchase_date_range rest s report_data
        else
          r <- calculate_depreciation asset ;;
          report_loop item_no purchase_date_range rest
            (store_set s i (snd r)) (extend_if report_data (fst r))
  end.

(** What the function returns: the message, or the path of the file it has
    written together with the rows written under the header. *)
Inductive report_result : Type :=
| Message (msg : string)
| ReportFile (file_path : string) (rows : list ReportRow).

(** [os.path.join("static", filename)] for a relative [filename]. *)
Definition static_path (filename : string) : string := "static/" ++ filename.

(** [generate_depreciation_report]. *)
Definition generate_depreciation_report (assets : list nat) (filename : string)
    (item_no : option string)
    (purchase_date_range : option (option date * option date)) (s : store)
    : outcome (report_result * store) :=
  r <- report_loop item_no purchase_date_range assets s [] ;;
  match fst r with
  | [] => Return (Message "No valid depreciation data available.", snd r)
  | row :: rows => Return (ReportFile (static_path filename) (row :: rows), snd r)
  end.

(** The rows a call contributes to a report. *)
Definition report_rows (r : report_result) : list ReportRow :=
  match r with
  | Message _ => []
  | ReportFile _ rows => rows
  end.

(** ** The filters of the earlier script [tmp/main1.py] *)

(** [d1 <= d2] on two values either of which may be [None]. *)
Definition py_date_le (d1 d2 : option date) : outcome bool :=
  match d1, d2 with
  | Some a, Some b => Return (negb (date_ltb b a))
  | _, _ => Raise TypeError
  end.

Module Main1.

(** [if item_no and asset.item_no != item_no: continue] *)
Definition item_filter_skips (item_no_filter : option string) (asset : Asset) : bool :=
  match item_no_filter with
  | Some f => str_truthy f && negb (item_no asset =? f)
  | None => false
  end.

(** [if not (start_date <= asset.purchase_date <= end_date): continue] *)
Definition date_filter_skips (purchase_date_range : option (option date * option date))
    (asset : Asset) : outcome bool :=
  match purchase_date_range with
  | None => Return false
  | Some (start_date, end_date) =>
      c1 <- py_date_le start_date (purchase_date asset) ;;
      if (c1 : bool) then
        c2 <- py_date_le (purchase_date asset) end_date ;;
        Return (negb c2)
      else Return true
  end.

End Main1.

(** ** Vocabulary of the statements *)


(** Starting from book value [prev], every row takes
    [min(d, prev - k)] off and records what is left. *)
Fixpoint unrounded_schedule (d k prev : Q) (rows : list ReportRow) : Prop :=
  match rows with
  | [] => True
  | r :: rest =>
      r_depreciation r = py_min d (prev - k)%Q
      /\ r_remaining_amount r = (prev - r_depreciation r)%Q
      /\ unrounded_schedule d k (r_remaining_amount r) rest
  end.

(** The book value after the last of [rows], [prev] when there is none. *)
Definition final_remaining (prev : Q) (rows : list ReportRow) : Q :=
  fold_left (fun _ r => r_remaining_amount r) rows prev.



(** One pass through the loop body, named for the statements below: the
    amount taken off, the object after the two assignments, the row
    appended. *)
Definition step_value (d : Q) (a : Asset) : Q :=
  py_min d (remaining_amount a - carcass_value a)%Q.

Definition step_asset (d : Q) (y : Z) (a : Asset) : Asset :=
  set_last_depr_date
    (set_remaining_amount a (remaining_amount a - step_value d a)%Q)
    (mkdate y 12 31).

Definition step_row (rnd : Q -> Q) (d : Q) (y : Z) (a : Asset) : ReportRow :=
  {| r_item_no := item_no a;
     r_purchase_date := purchase_date a;
     r_cost := cost a;
     r_carcass_value := carcass_value a;
     r_life_years := life_years a;
     r_year := y;
     r_depreciation := rnd (step_value d a);
     r_remaining_amount := rnd (remaining_amount a - step_value d a)%Q;
     r_last_depr_date := mkdate y 12 31 |}.

(** The asset passes [validate]. *)
Definition valid (a : Asset) : Prop := fst (validate a) = true.

(** [d1] is before [d2]. *)
Definition date_lt (d1 d2 : date) : Prop :=
  (year d1 < year d2)%Z
  \/ (year d1 = year d2
      /\ ((month d1 < month d2)%Z
          \/ (month d1 = month d2 /\ (day d1 < day d2)%Z))).

(** The rows of a returned value, none for [None]. *)
Definition rows_of (data : option (list ReportRow)) : list ReportRow :=
  match data with
  | Some l => l
  | None => []
  end.

(** ** Sample data of [main.py] / [main1.py] *)

Definition A001 : Asset :=
  Asset_init "A001" "FA" (Some (mkdate 2020 1 1)) 10000 1000 5 None None.
Definition A002 : Asset :=
  Asset_init "A002" "EQ" (Some (mkdate 2021 5 1)) 5000 500 3 None None.
Definition A003 : Asset :=
  Asset_init "A003" "FA" None 8000 800 4 None None.
Definition A004 : Asset :=
  Asset_init "A004" "FA" (Some (mkdate 2022 3 15)) 15000 2000 6 None None.

Definition sample_store : store :=
  fun i =>
    match i with
    | 0%nat => A001
    | 1%nat => A002
    | 2%nat => A003
    | _ => A004
    end.


(** Every character of [s] is white space. *)
Fixpoint all_space (s : string) : bool :=
  match s with
  | EmptyString => true
  | String c s' => is_space c && all_space s'
  end.

(** [b] is [a] up to the two fields a schedule assigns. *)
Definition same_static (b a : Asset) : Prop :=
  item_no b = item_no a /\ item_type b = item_type a
  /\ purchase_date b = purchase_date a /\ cost b = cost a
  /\ carcass_value b = carcass_value a /\ life_years b = life_years a.

(** The rows the report takes from the single asset [i] of store [s]. *)
Definition asset_rows (f : option string)
    (range : option (option date * option date)) (s : store) (i : nat)
    : list ReportRow :=
  match report_loop f range [i] s [] with
  | Return (rows, _) => rows
  | Raise _ => []
  end.


(** An asset a call has nothing to take from. *)
Definition spent (a : Asset) : Prop :=
  valid a ->
  last_depr_date a <> None /\ life_years a <> 0%Z
  /\ (remaining_amount a <= carcass_value a)%Q.

(** An asset a report with filters [f] and [range] passes over without
    rows: skipped by a filter, or let through and spent. *)
Definition settled (f : option string)
    (range : option (option date * option date)) (a : Asset) : Prop :=
  item_filter_skips f a = true
  \/ date_filter_skips range a = Return true
  \/ (date_filter_skips range a = Return false /\ spent a).


(** ** Reading the uploaded rows ([index] of [app.py]) *)

(** How the loop over the rows of the uploaded file ends: with the page
    that reports a missing purchase date, with the text
    ["Error processing file: ..."] (the text of the exception is not
    modelled), or with the list of assets handed to the report. *)
Inductive read_result : Type :=
| MissingPurchaseDate (error_message : string)
| ProcessingError
| AssetsRead (assets : list Asset).

Section ReadAssets.

(** The three library conversions applied to a field of a row:
    [datetime.datetime.strptime(_, "%Y-%m-%d").date()], [float] and [int];
    [None] when the call raises. *)
Variable strptime_date : string -> option date.
Variable py_float : string -> option Q.
Variable py_int : string -> option Z.

(** The [for row in reader] loop of [index], after the header line. *)
Fixpoint read_assets (rows : list (list string)) (assets : list Asset)
    : read_result :=
  match rows with
  | [] => AssetsRead assets
  | row :: rest =>
      match row with
      | [item_no_csv; item_type; purchase_date; cost; carcass_value; life_years] =>
          if negb (str_truthy (strip purchase_date)) then
            MissingPurchaseDate
              ("Error: Missing purchase date for item " ++ item_no_csv ++ ".")
          else
            match strptime_date purchase_date with
            | None => ProcessingError
            | Some d =>
                if negb (strip item_type =? "FA") then read_assets rest assets
                else
                  match py_float cost with
                  | None => ProcessingError
                  | Some c =>
                      match py_float carcass_value with
                      | None => ProcessingError
                      | Some k =>
                          match py_int life_years with
                          | None => ProcessingError
                          | Some n =>
                              read_assets rest
                                (assets ++
                                   [Asset_init item_no_csv item_type (Some d)
                                               c k n None None])
                          end
                      end
                  end
            end
      | _ => ProcessingError
      end
  end.

End ReadAssets.


(** The identifier and type of a row that [index] turns into an asset. *)
Definition fa_row (row : list string) : list (string * string) :=
  match row with
  | [item_no_csv; item_type; _; _; _; _] =>
      if strip item_type =? "FA" then [(item_no_csv, item_type)] else []
  | _ => []
  end.

(** * Properties *)

(** ** Numbers *)

Lemma Qltb_true (a b : Q) : Qltb a b = true <-> (a < b)%Q.
Proof.
  unfold Qltb. rewrite negb_true_iff. split; intro H.
  - apply Qnot_le_lt. intro Hle. apply Qle_bool_iff in Hle. congruence.
  - destruct (Qle_bool b a) eqn:E; [|reflexivity].
    apply Qle_bool_iff in E. lra.
Qed.


Lemma py_min_cases (a b : Q) :
  ((a <= b)%Q /\ py_min a b = a) \/ ((b < a)%Q /\ py_min a b = b).
Proof.
  unfold py_min. destruct (Qltb b a) eqn:E.
  - right. apply Qltb_true in E. auto.
  - left. split; [|reflexivity].
    destruct (Qlt_le_dec b a) as [H|H]; [|exact H].
    apply Qltb_true in H. congruence.
Qed.

Lemma py_min_le_l (a b : Q) : (py_min a b <= a)%Q.
Proof. destruct (py_min_cases a b) as [[H ->]|[H ->]]; lra. Qed.

Lemma py_min_le_r (a b : Q) : (py_min a b <= b)%Q.
Proof. destruct (py_min_cases a b) as [[H ->]|[H ->]]; lra. Qed.

Lemma py_min_glb (a b c : Q) : (c <= a)%Q -> (c <= b)%Q -> (c <= py_min a b)%Q.
Proof. intros Ha Hb. destruct (py_min_cases a b) as [[H ->]|[H ->]]; lra. Qed.




Lemma py_range_length (start n : Z) :
  List.length (py_range start (start + n)) = Z.to_nat n.
Proof.
  unfold py_range. rewrite length_map, length_seq. f_equal. lia.
Qed.

Lemma py_range_nil (start n : Z) : (n <= 0)%Z -> py_range start (start + n) = [].
Proof.
  intro H. unfold py_range.
  replace (Z.to_nat (start + n - start)) with 0%nat by lia. reflexivity.
Qed.

(** ** The scheduling loop *)

Section LoopFacts.

Variable rnd : Q -> Q.

Lemma depreciation_loop_break d y ys a acc :
  Qle_bool (remaining_amount a) (carcass_value a) = true ->
  depreciation_loop rnd d (y :: ys) a acc = (acc, a).
Proof. intro H. simpl. rewrite H. reflexivity. Qed.

Lemma depreciation_loop_step d y ys a acc :
  Qle_bool (remaining_amount a) (carcass_value a) = false ->
  depreciation_loop rnd d (y :: ys) a acc =
  depreciation_loop rnd d ys (step_asset d y a) (acc ++ [step_row rnd d y a])%list.
Proof. intro H. simpl. rewrite H. reflexivity. Qed.

Lemma depreciation_loop_acc d ys : forall a acc,
  depreciation_loop rnd d ys a acc =
  ((acc ++ fst (depreciation_loop rnd d ys a []))%list,
   snd (depreciation_loop rnd d ys a [])).
Proof.
  induction ys as [|y ys IH]; intros a acc.
  - simpl. rewrite app_nil_r. reflexivity.
  - destruct (Qle_bool (remaining_amount a) (carcass_value a)) eqn:E.
    + rewrite !depreciation_loop_break by exact E.
      simpl. rewrite app_nil_r. reflexivity.
    + rewrite !depreciation_loop_step by exact E.
      rewrite IH. rewrite (IH _ ([] ++ _)%list).
      simpl. rewrite <- app_assoc. reflexivity.
Qed.

(** The rows and the final object of a run that takes a step. *)
Lemma depreciation_loop_rows_step d y ys a :
  Qle_bool (remaining_amount a) (carcass_value a) = false ->
  fst (depreciation_loop rnd d (y :: ys) a []) =
    step_row rnd d y a :: fst (depreciation_loop rnd d ys (step_asset d y a) [])
  /\ snd (depreciation_loop rnd d (y :: ys) a []) =
     snd (depreciation_loop rnd d ys (step_asset d y a) []).
Proof.
  intro E. rewrite depreciation_loop_step by exact E.
  rewrite depreciation_loop_acc. simpl. auto.
Qed.

(** The loop appends at most one row per candidate year. *)
Lemma depreciation_loop_length d ys : forall a,
  (List.length (fst (depreciation_loop rnd d ys a [])) <= List.length ys)%nat.
Proof.
  induction ys as [|y ys IH]; intro a.
  - simpl. lia.
  - destruct (Qle_bool (remaining_amount a) (carcass_value a)) eqn:E.
    + rewrite depreciation_loop_break by exact E. simpl. lia.
    + destruct (depreciation_loop_rows_step d y ys a E) as [-> _].
      simpl. specialize (IH (step_asset d y a)). lia.
Qed.

(** Only [remaining_amount] and [last_depr_date] are assigned. *)
Lemma depreciation_loop_frame d ys : forall a,
  let a' := snd (depreciation_loop rnd d ys a []) in
  item_no a' = item_no a /\ item_type a' = item_type a
  /\ purchase_date a' = purchase_date a /\ cost a' = cost a
  /\ carcass_value a' = carcass_value a /\ life_years a' = life_years a
  /\ (last_depr_date a <> None -> last_depr_date a' <> None).
Proof.
  induction ys as [|y ys IH]; intro a.
  - simpl. tauto.
  - destruct (Qle_bool (remaining_amount a) (carcass_value a)) eqn:E.
    + rewrite depreciation_loop_break by exact E. simpl. tauto.
    + destruct (depreciation_loop_rows_step d y ys a E) as [_ Hs].
      cbv zeta. rewrite Hs.
      destruct (IH (step_asset d y a)) as (H1 & H2 & H3 & H4 & H5 & H6 & H7).
      simpl in *. repeat split; try assumption.
      intros _. apply H7. discriminate.
Qed.

(** Every row carries the identifier of the asset scheduled. *)
Lemma depreciation_loop_item_no d ys : forall a,
  Forall (fun r => r_item_no r = item_no a)
         (fst (depreciation_loop rnd d ys a [])).
Proof.
  induction ys as [|y ys IH]; intro a.
  - constructor.
  - destruct (Qle_bool (remaining_amount a) (carcass_value a)) eqn:E.
    + rewrite depreciation_loop_break by exact E. constructor.
    + destruct (depreciation_loop_rows_step d y ys a E) as [-> _].
      constructor; [reflexivity|].
      exact (IH (step_asset d y a)).
Qed.


End LoopFacts.


(** The unrounded rows follow the recurrence, and the object ends on the
    last recorded book value. *)
Lemma depreciation_loop_schedule d ys : forall a,
  let run := depreciation_loop (fun x => x) d ys a [] in
  unrounded_schedule d (carcass_value a) (remaining_amount a) (fst run)
  /\ remaining_amount (snd run) = final_remaining (remaining_amount a) (fst run).
Proof.
  induction ys as [|y ys IH]; intro a.
  - simpl. auto.
  - destruct (Qle_bool (remaining_amount a) (carcass_value a)) eqn:E.
    + cbv zeta. rewrite depreciation_loop_break by exact E. simpl. auto.
    + cbv zeta.
      destruct (depreciation_loop_rows_step (fun x => x) d y ys a E) as [-> ->].
      destruct (IH (step_asset d y a)) as [H1 H2].
      simpl in *. auto.
Qed.

(** ** Schedules *)











Section FullRun.

Variable rnd : Q -> Q.



End FullRun.

(** ** Validation *)

Lemma valid_iff (a : Asset) :
  valid a <-> item_type a = "FA" /\ purchase_date a <> None.
Proof.
  unfold valid, validate.
  destruct (String.eqb_spec (item_type a) "FA") as [E|NE]; simpl.
  - destruct (purchase_date a); simpl; split.
    + intros _. split; [exact E|discriminate].
    + reflexivity.
    + discriminate.
    + intros [_ H]. congruence.
  - split; [discriminate|]. intros [E _]. contradiction.
Qed.

Lemma not_valid_iff (a : Asset) :
  fst (validate a) = false <-> item_type a <> "FA" \/ purchase_date a = None.
Proof.
  unfold validate.
  destruct (String.eqb_spec (item_type a) "FA") as [E|NE]; simpl.
  - destruct (purchase_date a); simpl; split; auto; try discriminate.
    intros [H|H]; congruence.
  - split; auto.
Qed.

Lemma append_assoc (s1 s2 s3 : string) : (s1 ++ s2) ++ s3 = s1 ++ (s2 ++ s3).
Proof. induction s1 as [|c s1 IH]; simpl; [reflexivity|]. rewrite IH. reflexivity. Qed.

(** ** [calculate_depreciation] as a whole *)

Section CalcFacts.

Variable rnd : Q -> Q.

Lemma calculate_depreciation_invalid a :
  fst (validate a) = false ->
  calculate_depreciation_with rnd a = Return (None, a).
Proof. intro H. unfold calculate_depreciation_with. rewrite H. reflexivity. Qed.

Lemma calculate_depreciation_zero_life a :
  valid a -> life_years a = 0%Z ->
  calculate_depreciation_with rnd a = Raise ZeroDivisionError.
Proof.
  intros Hv Hl. unfold calculate_depreciation_with, straight_line_depreciation.
  rewrite Hv, Hl. reflexivity.
Qed.

Lemma calculate_depreciation_run a d0 :
  valid a -> life_years a <> 0%Z -> last_depr_date a = Some d0 ->
  let run :=
    depreciation_loop rnd
      ((cost a - carcass_value a) / inject_Z (life_years a))%Q
      (py_range (year d0) (year d0 + life_years a)) a [] in
  calculate_depreciation_with rnd a = Return (Some (fst run), snd run).
Proof.
  intros Hv Hl Hd. unfold calculate_depreciation_with, straight_line_depreciation.
  rewrite Hv. apply Z.eqb_neq in Hl. rewrite Hl. simpl. rewrite Hd.
  destruct (depreciation_loop _ _ _ _ _). reflexivity.
Qed.


(** A call that returns rows came through the loop. *)
Lemma calculate_depreciation_returns a rows a' :
  calculate_depreciation_with rnd a = Return (Some rows, a') ->
  valid a /\ life_years a <> 0%Z
  /\ exists d0, last_depr_date a = Some d0
     /\ rows = fst (depreciation_loop rnd
                      ((cost a - carcass_value a) / inject_Z (life_years a))%Q
                      (py_range (year d0) (year d0 + life_years a)) a [])
     /\ a' = snd (depreciation_loop rnd
                    ((cost a - carcass_value a) / inject_Z (life_years a))%Q
                    (py_range (year d0) (year d0 + life_years a)) a []).
Proof.
  intro H.
  destruct (fst (validate a)) eqn:Hv.
  - destruct (Z.eq_dec (life_years a) 0) as [Hl|Hl].
    + rewrite (calculate_depreciation_zero_life a Hv Hl) in H. discriminate.
    + destruct (last_depr_date a) as [d0|] eqn:Hd.
      * rewrite (calculate_depreciation_run a d0 Hv Hl Hd) in H.
        injection H as H1 H2. repeat split; try assumption.
        exists d0. auto.
      * unfold calculate_depreciation_with, straight_line_depreciation in H.
        rewrite Hv in H. apply Z.eqb_neq in Hl. rewrite Hl in H.
        simpl in H. rewrite Hd in H. discriminate.
  - rewrite (calculate_depreciation_invalid a Hv) in H. discriminate.
Qed.

End CalcFacts.

(** The invariant holds of every constructed object and survives a call. *)
Lemma Asset_init_wf item_no item_type purchase_date cost carcass_value life_years
    last_depr_date remaining_amount :
  wf_asset (Asset_init item_no item_type purchase_date cost carcass_value
                       life_years last_depr_date remaining_amount).
Proof.
  unfold wf_asset, Asset_init. simpl.
  destruct last_depr_date; [discriminate|tauto].
Qed.

Lemma calculate_depreciation_wf rnd a data a' :
  wf_asset a ->
  calculate_depreciation_with rnd a = Return (data, a') ->
  wf_asset a'.
Proof.
  intros Hw H. destruct data as [rows|].
  - apply calculate_depreciation_returns in H.
    destruct H as (Hv & _ & d0 & Hd & _ & ->).
    destruct (depreciation_loop_frame rnd
                ((cost a - carcass_value a) / inject_Z (life_years a))%Q
                (py_range (year d0) (year d0 + life_years a)) a)
      as (_ & _ & _ & _ & _ & _ & H7).
    intros _. apply H7. rewrite Hd. discriminate.
  - unfold calculate_depreciation_with, straight_line_depreciation in H.
    destruct (fst (validate a)); simpl in H.
    + destruct (life_years a =? 0)%Z; simpl in H; [discriminate|].
      destruct (last_depr_date a); [|discriminate].
      destruct (depreciation_loop _ _ _ _ _). discriminate.
    + injection H as <-. exact Hw.
Qed.

(** The annual amount is non-negative when the life is positive and the
    residual value does not exceed the cost. *)
Lemma annual_amount_nonneg (a : Asset) :
  (1 <= life_years a)%Z -> (carcass_value a <= cost a)%Q ->
  (0 <= (cost a - carcass_value a) / inject_Z (life_years a))%Q.
Proof.
  intros Hl Hc.
  assert (Hn : (0 < inject_Z (life_years a))%Q).
  { change 0%Q with (inject_Z 0). rewrite <- Zlt_Qlt. lia. }
  apply Qle_shift_div_l; [exact Hn|]. lra.
Qed.



(** * The claims *)

(** C8. [validate] answers [(False, reason)] with a reason saying the item is
    not a fixed asset when [item_type] is not ["FA"]; [(False, reason)] with
    a reason saying the purchase date is missing when [item_type] is ["FA"]
    and [purchase_date] is absent; and [(True, None)] in every other case.
    The method assigns nothing: its result is a function of the object, and
    the object is the same afterwards. *)
Theorem validate_spec (a : Asset) :
  (item_type a <> "FA" ->
   exists reason, validate a = (false, Some reason)
     /\ mentions reason "Not a Fixed Asset" /\ mentions reason (item_no a))
  /\ (item_type a = "FA" -> purchase_date a = None ->
      exists reason, validate a = (false, Some reason)
        /\ mentions reason "Missing purchase date" /\ mentions reason (item_no a))
  /\ (item_type a = "FA" -> purchase_date a <> None -> validate a = (true, None)).
Proof.
  unfold validate. repeat split.
  - intro H. apply String.eqb_neq in H. rewrite H. simpl.
    eexists. split; [reflexivity|]. split.
    + exists ("Skipping item " ++ item_no a ++ ": "), " (FA).".
      rewrite !append_assoc. reflexivity.
    + exists "Skipping item ", ": Not a Fixed Asset (FA).". reflexivity.
  - intros H Hp. rewrite H, Hp. simpl.
    eexists. split; [reflexivity|]. split.
    + exists "Error: ", (" for item " ++ item_no a ++ "."). reflexivity.
    + exists "Error: Missing purchase date for item ", ".". reflexivity.
  - intros H Hp. rewrite H. simpl.
    destruct (purchase_date a); [reflexivity|contradiction].
Qed.

Lemma validate_spec_witness :
  (exists reason, validate A002 = (false, Some reason)
     /\ mentions reason "Not a Fixed Asset" /\ mentions reason "A002")
  /\ (exists reason, validate A003 = (false, Some reason)
        /\ mentions reason "Missing purchase date" /\ mentions reason "A003")
  /\ validate A001 = (true, None).
Proof.
  split; [|split].
  - apply (proj1 (validate_spec A002)). discriminate.
  - apply (proj1 (proj2 (validate_spec A003))); reflexivity.
  - apply (proj2 (proj2 (validate_spec A001))); [reflexivity|discriminate].
Defined.

(** C4. An asset whose [item_type] is not ["FA"], or whose [purchase_date]
    is absent, gets no report rows from [calculate_depreciation], whatever
    its other fields: the call returns [None], raises nothing, leaves the
    object as it was, and the report loop appends nothing for it. *)
Theorem calculate_depreciation_ineligible (a : Asset) :
  item_type a <> "FA" \/ purchase_date a = None ->
  calculate_depreciation a = Return (None, a)
  /\ Main.calculate_depreciation a = Return (None, a)
  /\ forall report_data, extend_if report_data None = report_data.
Proof.
  intro H. apply not_valid_iff in H. repeat split.
  - apply calculate_depreciation_invalid. exact H.
  - apply calculate_depreciation_invalid. exact H.
Qed.

Lemma calculate_depreciation_ineligible_witness :
  calculate_depreciation A003 = Return (None, A003)
  /\ Main.calculate_depreciation A003 = Return (None, A003)
  /\ forall report_data, extend_if report_data None = report_data.
Proof.
  apply (calculate_depreciation_ineligible A003). right. reflexivity.
Defined.

(** C3, as stated, fails: an ["FA"] asset with a purchase date and
    [life_years = 0] passes [validate], and scheduling it divides by zero. *)
Lemma zero_life_passes_validation :
  let a := Asset_init "A1" "FA" (Some (mkdate 2020 1 1)) 100 10 0 None None in
  (life_years a <= 0)%Z
  /\ validate a = (true, None)
  /\ calculate_depreciation a = Raise ZeroDivisionError.
Proof. repeat split. discriminate. Qed.

(** C3, amended. [validate] does not look at [life_years].  An asset that
    fails [validate] never reaches the division; an asset that passes it
    reaches the division whatever its [life_years], and the call raises
    [ZeroDivisionError] exactly when [life_years] is zero. *)
Theorem division_guarded_by_validate_only (a : Asset) :
  (forall n, validate (set_life_years a n) = validate a)
  /\ (fst (validate a) = false -> calculate_depreciation a = Return (None, a))
  /\ (valid a ->
      (calculate_depreciation a = Raise ZeroDivisionError <-> life_years a = 0%Z)).
Proof.
  repeat split.
  - apply calculate_depreciation_invalid.
  - intro Hr. destruct (Z.eq_dec (life_years a) 0) as [Hl|Hl]; [exact Hl|exfalso].
    unfold calculate_depreciation, calculate_depreciation_with,
      straight_line_depreciation in Hr.
    rewrite H in Hr. apply Z.eqb_neq in Hl. rewrite Hl in Hr. simpl in Hr.
    destruct (last_depr_date a); [|discriminate].
    destruct (depreciation_loop _ _ _ _ _). discriminate.
  - apply calculate_depreciation_zero_life. exact H.
Qed.

Lemma division_guarded_by_validate_only_witness :
  calculate_depreciation A002 = Return (None, A002)
  /\ (calculate_depreciation A001 = Raise ZeroDivisionError <-> life_years A001 = 0%Z).
Proof.
  split.
  - apply (proj1 (proj2 (division_guarded_by_validate_only A002))). reflexivity.
  - apply (proj2 (proj2 (division_guarded_by_validate_only A001))). reflexivity.
Defined.


(** The rows of the unrounded call follow the recurrence of the loop. *)
Lemma Main_calculate_depreciation_schedule (a : Asset) raw a' :
  Main.calculate_depreciation a = Return (Some raw, a') ->
  unrounded_schedule
    ((cost a - carcass_value a) / inject_Z (life_years a))%Q
    (carcass_value a) (remaining_amount a) raw
  /\ remaining_amount a' = final_remaining (remaining_amount a) raw.
Proof.
  intro H. apply calculate_depreciation_returns in H.
  destruct H as (_ & _ & d0 & _ & -> & ->).
  apply depreciation_loop_schedule.
Qed.














(** ** The report loop *)

Lemma extend_if_rows_of report_data data :
  extend_if report_data data = (report_data ++ rows_of data)%list.
Proof.
  destruct data as [[|r l]|]; simpl; try reflexivity;
    rewrite app_nil_r; reflexivity.
Qed.

(** What a returning call does to the identifier: the object keeps it and
    every row carries it. *)
Lemma calculate_depreciation_item_no rnd a data a1 :
  calculate_depreciation_with rnd a = Return (data, a1) ->
  item_no a1 = item_no a
  /\ Forall (fun r => r_item_no r = item_no a) (rows_of data).
Proof.
  intro H. destruct data as [rows|].
  - apply calculate_depreciation_returns in H.
    destruct H as (_ & _ & d0 & _ & -> & ->). split.
    + apply depreciation_loop_frame.
    + apply depreciation_loop_item_no.
  - split; [|constructor].
    unfold calculate_depreciation_with, straight_line_depreciation in H.
    destruct (fst (validate a)); simpl in H.
    + destruct (life_years a =? 0)%Z; simpl in H; [discriminate|].
      destruct (last_depr_date a); [|discriminate].
      destruct (depreciation_loop _ _ _ _ _). discriminate.
    + injection H as <-. reflexivity.
Qed.

Lemma item_filter_given_nonempty f :
  strip f <> "" -> item_filter_given (Some f) = true.
Proof.
  intro H. unfold item_filter_given.
  destruct f as [|c f]; [contradiction H; reflexivity|].
  destruct (strip (String c f)); [contradiction H; reflexivity|reflexivity].
Qed.

Lemma store_set_item_no s i a :
  item_no a = item_no (s i) ->
  forall j, item_no (store_set s i a j) = item_no (s j).
Proof.
  intros H j. unfold store_set.
  destruct (Nat.eqb_spec j i) as [->|_]; [exact H|reflexivity].
Qed.

(** With an item filter in force, the loop only ever appends rows of listed
    assets whose identifier matches the filter, and no identifier in the
    store changes. *)
Lemma report_loop_item_filter f range assets : forall s acc rows s',
  item_filter_given (Some f) = true ->
  report_loop (Some f) range assets s acc = Return (rows, s') ->
  (forall j, item_no (s' j) = item_no (s j))
  /\ exists new,
       rows = (acc ++ new)%list
       /\ Forall (fun r => exists i, In i assets
                                     /\ r_item_no r = item_no (s i)
                                     /\ lower (strip (item_no (s i))) = lower (strip f))
                 new.
Proof.
  induction assets as [|i rest IH]; intros s acc rows s' Hf H.
  - simpl in H. injection H as <- <-. split; [reflexivity|].
    exists []. rewrite app_nil_r. split; [reflexivity|constructor].
  - assert (Hweaken : forall (s0 : store) new,
              (forall j, item_no (s0 j) = item_no (s j)) ->
              Forall (fun r => exists i0, In i0 rest
                                          /\ r_item_no r = item_no (s0 i0)
                                          /\ lower (strip (item_no (s0 i0)))
                                             = lower (strip f)) new ->
              Forall (fun r => exists i0, In i0 (i :: rest)
                                          /\ r_item_no r = item_no (s i0)
                                          /\ lower (strip (item_no (s i0)))
                                             = lower (strip f)) new).
    { intros s0 new Hs0 Hall. eapply Forall_impl; [|exact Hall].
      intros r (i0 & Hin & H1 & H2). exists i0.
      rewrite Hs0 in H1, H2. split; [right; exact Hin|]. split; assumption. }
    cbn [report_loop] in H.
    destruct (item_filter_skips (Some f) (s i)) eqn:Hskip.
    + destruct (IH _ _ _ _ Hf H) as (Hs & new & -> & Hall).
      split; [exact Hs|]. exists new. split; [reflexivity|].
      apply (Hweaken s); [reflexivity|exact Hall].
    + assert (Hmatch : lower (strip (item_no (s i))) = lower (strip f)).
      { unfold item_filter_skips in Hskip. rewrite Hf in Hskip. simpl in Hskip.
        unfold item_mismatch in Hskip. apply negb_false_iff in Hskip.
        apply String.eqb_eq. exact Hskip. }
      destruct (date_filter_skips range (s i)) as [[|]|e]; simpl in H;
        [| |discriminate].
      * destruct (IH _ _ _ _ Hf H) as (Hs & new & -> & Hall).
        split; [exact Hs|]. exists new. split; [reflexivity|].
        apply (Hweaken s); [reflexivity|exact Hall].
      * destruct (calculate_depreciation (s i)) as [[data a1]|e] eqn:Hcalc;
          simpl in H; [|discriminate].
        apply calculate_depreciation_item_no in Hcalc.
        destruct Hcalc as [Hno Hrows].
        pose proof (store_set_item_no s i a1 Hno) as Hset.
        destruct (IH _ _ _ _ Hf H) as (Hs & new & -> & Hall).
        split; [intro j; rewrite Hs; apply Hset|].
        exists (rows_of data ++ new)%list.
        rewrite extend_if_rows_of, <- app_assoc. split; [reflexivity|].
        apply Forall_app. split.
        -- eapply Forall_impl; [|exact Hrows].
           intros r Hr. exists i. split; [left; reflexivity|]. split; assumption.
        -- apply (Hweaken (store_set s i a1)); [exact Hset|exact Hall].
Qed.

(** C5. With an item filter that is non-empty after trimming, every row of
    the report comes from a listed asset whose [item_no], trimmed and
    lower-cased, equals the trimmed, lower-cased filter, and carries that
    asset's [item_no]; the filter [" a004 "] does not skip the asset
    ["A004"]. *)
Theorem item_filter_sound (assets : list nat) (filename f : string)
    (range : option (option date * option date)) (s s' : store)
    (res : report_result) :
  strip f <> "" ->
  generate_depreciation_report assets filename (Some f) range s = Return (res, s') ->
  Forall (fun r => lower (strip (r_item_no r)) = lower (strip f)
                   /\ exists i, In i assets /\ r_item_no r = item_no (s i))
         (report_rows res)
  /\ item_filter_skips (Some " a004 ") A004 = false.
Proof.
  intros Hne H. split; [|reflexivity].
  apply item_filter_given_nonempty in Hne.
  unfold generate_depreciation_report in H.
  destruct (report_loop (Some f) range assets s []) as [[rows s1]|e] eqn:Hloop;
    simpl in H; [|discriminate].
  destruct (report_loop_item_filter f range assets _ _ _ _ Hne Hloop)
    as (_ & new & Hrows & Hall).
  simpl in Hrows. subst new.
  assert (Hres : report_rows res = rows).
  { destruct rows as [|r rows]; injection H as <- _; reflexivity. }
  rewrite Hres. eapply Forall_impl; [|exact Hall].
  intros r (i & Hin & H1 & H2). split.
  - rewrite H1. exact H2.
  - exists i. auto.
Qed.

Lemma item_filter_sound_witness :
  exists res s',
    generate_depreciation_report [0; 1; 2; 3]%nat "depreciation_report.csv"
      (Some " a004 ") (Some (Some (mkdate 2022 1 1), Some (mkdate 2023 12 31)))
      sample_store = Return (res, s')
    /\ List.length (report_rows res) = 6%nat
    /\ Forall (fun r => lower (strip (r_item_no r)) = lower (strip " a004 ")
                        /\ exists i, In i [0; 1; 2; 3]%nat
                                     /\ r_item_no r = item_no (sample_store i))
              (report_rows res)
    /\ item_filter_skips (Some " a004 ") A004 = false.
Proof.
  eexists. eexists. split; [vm_compute; reflexivity|].
  split; [reflexivity|].
  eapply (item_filter_sound [0; 1; 2; 3]%nat "depreciation_report.csv" " a004 "
            (Some (Some (mkdate 2022 1 1), Some (mkdate 2023 12 31))) sample_store).
  - vm_compute. discriminate.
  - vm_compute. reflexivity.
Defined.

Lemma date_ltb_spec (d1 d2 : date) : date_ltb d1 d2 = true <-> date_lt d1 d2.
Proof.
  unfold date_ltb, date_lt.
  rewrite !orb_true_iff, !andb_true_iff, !orb_true_iff, !andb_true_iff,
    !Z.ltb_lt, !Z.eqb_eq.
  reflexivity.
Qed.

(** C6, as stated, fails for an asset without a purchase date: with a start
    bound given, the comparison of [None] with a date raises [TypeError] and
    the report is abandoned, where the claim has the asset pass the date
    filter. *)
Lemma date_filter_raises_without_purchase_date :
  purchase_date (sample_store 2%nat) = None
  /\ date_filter_skips (Some (Some (mkdate 2022 1 1), None)) (sample_store 2%nat)
     = Raise TypeError
  /\ generate_depreciation_report [2]%nat "depreciation_report.csv" None
       (Some (Some (mkdate 2022 1 1), None)) sample_store
     = Raise TypeError.
Proof. repeat split. Qed.

(** C6, amended. For an asset that has a purchase date and a range
    [(start, end)] either bound of which may be absent, the date filter
    skips the asset exactly when its purchase date is before [start] (when
    given) or after [end] (when given); with both bounds absent, or no
    range at all, it skips no asset.  An asset the date filter skips is not
    scheduled and contributes nothing; an asset that passes both filters is
    scheduled and its rows are appended. *)
Theorem date_filter_spec (asset : Asset) (pd : date) (start_date end_date : option date) :
  purchase_date asset = Some pd ->
  (exists skip,
      date_filter_skips (Some (start_date, end_date)) asset = Return skip
      /\ (skip = true <->
          (exists sd, start_date = Some sd /\ date_lt pd sd)
          \/ (exists ed, end_date = Some ed /\ date_lt ed pd)))
  /\ (forall other, date_filter_skips (Some (None, None)) other = Return false)
  /\ (forall other, date_filter_skips None other = Return false)
  /\ (forall f range i rest (s : store) acc,
        s i = asset ->
        item_filter_skips f asset = false ->
        (date_filter_skips range asset = Return true ->
         report_loop f range (i :: rest) s acc = report_loop f range rest s acc)
        /\ (date_filter_skips range asset = Return false ->
            report_loop f range (i :: rest) s acc =
            (r <- calculate_depreciation asset ;;
             report_loop f range rest (store_set s i (snd r))
                         (extend_if acc (fst r))))).
Proof.
  intro Hpd. split; [|split; [|split]].
  - unfold date_filter_skips, py_date_lt, py_date_gt. rewrite Hpd.
    destruct start_date as [sd|]; destruct end_date as [ed|]; simpl.
    + destruct (date_ltb pd sd) eqn:E1.
      * exists true. split; [reflexivity|]. split; [|reflexivity].
        intros _. left. exists sd. split; [reflexivity|].
        apply date_ltb_spec. exact E1.
      * exists (date_ltb ed pd). split; [reflexivity|].
        rewrite date_ltb_spec. split.
        -- intro H. right. exists ed. auto.
        -- intros [(sd' & Hs & Hlt)|(ed' & He & Hlt)].
           ++ injection Hs as <-. apply date_ltb_spec in Hlt. congruence.
           ++ injection He as <-. exact Hlt.
    + exists (date_ltb pd sd). split; [destruct (date_ltb pd sd); reflexivity|].
      rewrite date_ltb_spec. split.
      * intro H. left. exists sd. auto.
      * intros [(sd' & Hs & Hlt)|(ed' & He & _)]; [|discriminate].
        injection Hs as <-. exact Hlt.
    + exists (date_ltb ed pd). split; [reflexivity|].
      rewrite date_ltb_spec. split.
      * intro H. right. exists ed. auto.
      * intros [(sd' & Hs & _)|(ed' & He & Hlt)]; [discriminate|].
        injection He as <-. exact Hlt.
    + exists false. split; [reflexivity|]. split; [discriminate|].
      intros [(sd' & Hs & _)|(ed' & He & _)]; discriminate.
  - reflexivity.
  - reflexivity.
  - intros f range i rest s acc Hs Hitem. split; intro Hdate;
      cbn [report_loop]; rewrite Hs, Hitem, Hdate; reflexivity.
Qed.

Lemma date_filter_spec_witness :
  date_filter_skips (Some (Some (mkdate 2022 1 1), Some (mkdate 2023 12 31))) A001
    = Return true
  /\ date_filter_skips (Some (Some (mkdate 2022 1 1), Some (mkdate 2023 12 31))) A004
     = Return false
  /\ report_loop None (Some (Some (mkdate 2022 1 1), Some (mkdate 2023 12 31)))
       [0]%nat sample_store []
     = report_loop None (Some (Some (mkdate 2022 1 1), Some (mkdate 2023 12 31)))
         [] sample_store [].
Proof.
  pose proof (date_filter_spec A001 (mkdate 2020 1 1)
                (Some (mkdate 2022 1 1)) (Some (mkdate 2023 12 31)) eq_refl) as H1.
  pose proof (date_filter_spec A004 (mkdate 2022 3 15)
                (Some (mkdate 2022 1 1)) (Some (mkdate 2023 12 31)) eq_refl) as H4.
  destruct H1 as ((skip1 & E1 & I1) & _ & _ & L1).
  destruct H4 as ((skip4 & E4 & I4) & _ & _ & _).
  split; [|split].
  - rewrite E1. f_equal. apply I1. left. eexists. split; [reflexivity|].
    vm_compute. left. reflexivity.
  - rewrite E4. f_equal. destruct skip4; [|reflexivity].
    exfalso. destruct (proj1 I4 eq_refl) as [(sd & Hs & Hlt)|(ed & He & Hlt)].
    + injection Hs as <-. vm_compute in Hlt.
      destruct Hlt as [Hlt|[_ [Hlt|[_ Hlt]]]]; discriminate.
    + injection He as <-. vm_compute in Hlt.
      destruct Hlt as [Hlt|[_ [Hlt|[_ Hlt]]]]; discriminate.
  - apply (proj1 (L1 None (Some (Some (mkdate 2022 1 1), Some (mkdate 2023 12 31)))
                    0%nat [] sample_store [] eq_refl eq_refl)).
    reflexivity.
Defined.

(** ** The scenario of the sample data *)

(** [A001]: cost 10000, residual value 1000, five years from 2020.  The
    rows are those of the years 2020 to 2024, each with 1800 of
    depreciation, and book values 8200, 6400, 4600, 2800 and 1000. *)
Example A001_schedule :
  exists rows a',
    calculate_depreciation A001 = Return (Some rows, a')
    /\ map r_year rows = [2020; 2021; 2022; 2023; 2024]%Z
    /\ map (fun r => Qred (r_depreciation r)) rows = [1800; 1800; 1800; 1800; 1800]%Q
    /\ map (fun r => Qred (r_remaining_amount r)) rows
       = [8200; 6400; 4600; 2800; 1000]%Q
    /\ last_depr_date a' = Some (mkdate 2024 12 31).
Proof.
  eexists. eexists. split; [vm_compute; reflexivity|].
  repeat split.
Qed.

(** ** The earlier filters of [tmp/main1.py] against those of [app.py] *)

(** With both bounds given and a purchase date present the two date filters
    agree. *)
Lemma Main1_date_filter_agrees (asset : Asset) (pd sd ed : date) :
  purchase_date asset = Some pd ->
  Main1.date_filter_skips (Some (Some sd, Some ed)) asset
  = date_filter_skips (Some (Some sd, Some ed)) asset.
Proof.
  intro H. unfold Main1.date_filter_skips, date_filter_skips,
             py_date_le, py_date_lt, py_date_gt.
  rewrite H. simpl.
  destruct (date_ltb pd sd); simpl; [reflexivity|].
  rewrite negb_involutive. reflexivity.
Qed.

(** An open bound is an error there, not an open range. *)
Lemma Main1_date_filter_open_bound (asset : Asset) (ed : option date) :
  Main1.date_filter_skips (Some (None, ed)) asset = Raise TypeError.
Proof. reflexivity. Qed.

(** The earlier item filter compares the identifiers as they are. *)
Lemma Main1_item_filter_exact :
  Main1.item_filter_skips (Some " a004 ") A004 = true
  /\ Main1.item_filter_skips (Some "A004") A004 = false.
Proof. split; reflexivity. Qed.

(** An identifier that passes the earlier filter passes the one of
    [app.py]. *)
Lemma Main1_item_filter_stricter (f : string) (asset : Asset) :
  Main1.item_filter_skips (Some f) asset = false ->
  item_filter_skips (Some f) asset = false.
Proof.
  unfold Main1.item_filter_skips, item_filter_skips, item_filter_given, item_mismatch.
  destruct f as [|c f]; [reflexivity|]. simpl str_truthy at 1 2.
  cbn [andb]. intro H. apply negb_false_iff, String.eqb_eq in H. rewrite H.
  rewrite String.eqb_refl. simpl. apply andb_false_r.
Qed.

(** * Further properties of the code *)

(** ** Years, dates and copied fields of a schedule *)

Lemma last_cons_default {A : Type} (l : list A) : forall (x y : A),
  last (x :: l) y = last l x.
Proof.
  induction l as [|z l IH]; intros x y; [reflexivity|].
  change (last (x :: z :: l) y) with (last (z :: l) y).
  rewrite (IH z y), (IH z x). reflexivity.
Qed.

Lemma firstn_seq_le (k len start : nat) :
  (k <= len)%nat -> firstn k (seq start len) = seq start k.
Proof.
  revert len start. induction k as [|k IH]; intros len start H; [reflexivity|].
  destruct len as [|len]; [lia|]. simpl. f_equal. apply IH. lia.
Qed.

Section LoopRows.

Variable rnd : Q -> Q.

(** The rows take the candidate years in order, from the first one on. *)
Lemma depreciation_loop_years d ys : forall a,
  map r_year (fst (depreciation_loop rnd d ys a []))
  = firstn (List.length (fst (depreciation_loop rnd d ys a []))) ys.
Proof.
  induction ys as [|y ys IH]; intro a.
  - reflexivity.
  - destruct (Qle_bool (remaining_amount a) (carcass_value a)) eqn:E.
    + rewrite depreciation_loop_break by exact E. reflexivity.
    + destruct (depreciation_loop_rows_step rnd d y ys a E) as [-> _].
      cbn [map List.length firstn]. rewrite <- IH. reflexivity.
Qed.

(** Every row copies the five constant fields of the asset and is dated the
    last day of its year. *)
Lemma depreciation_loop_row_fields d ys : forall a,
  Forall (fun r => r_item_no r = item_no a
                   /\ r_purchase_date r = purchase_date a
                   /\ r_cost r = cost a
                   /\ r_carcass_value r = carcass_value a
                   /\ r_life_years r = life_years a
                   /\ r_last_depr_date r = mkdate (r_year r) 12 31)
         (fst (depreciation_loop rnd d ys a [])).
Proof.
  induction ys as [|y ys IH]; intro a.
  - constructor.
  - destruct (Qle_bool (remaining_amount a) (carcass_value a)) eqn:E.
    + rewrite depreciation_loop_break by exact E. constructor.
    + destruct (depreciation_loop_rows_step rnd d y ys a E) as [-> _].
      constructor; [simpl; tauto|].
      exact (IH (step_asset d y a)).
Qed.

(** A run without rows leaves the object alone; otherwise the object is
    dated like the last row. *)
Lemma depreciation_loop_last_date d ys : forall a,
  let run := depreciation_loop rnd d ys a [] in
  match fst run with
  | [] => snd run = a
  | r :: rows => last_depr_date (snd run)
                 = Some (r_last_depr_date (last rows r))
  end.
Proof.
  induction ys as [|y ys IH]; intro a.
  - reflexivity.
  - destruct (Qle_bool (remaining_amount a) (carcass_value a)) eqn:E.
    + cbv zeta. rewrite depreciation_loop_break by exact E. reflexivity.
    + cbv zeta.
      destruct (depreciation_loop_rows_step rnd d y ys a E) as [-> ->].
      specialize (IH (step_asset d y a)). cbv zeta in IH.
      destruct (fst (depreciation_loop rnd d ys (step_asset d y a) []))
        as [|r rows].
      * rewrite IH. reflexivity.
      * rewrite last_cons_default. exact IH.
Qed.

End LoopRows.

Lemma firstn_py_range (start n : Z) (k : nat) :
  (k <= Z.to_nat n)%nat ->
  firstn k (py_range start (start + n)) = py_range start (start + Z.of_nat k).
Proof.
  intro H. unfold py_range. rewrite firstn_map.
  replace (Z.to_nat (start + n - start)) with (Z.to_nat n) by lia.
  replace (Z.to_nat (start + Z.of_nat k - start)) with k by lia.
  rewrite firstn_seq_le by exact H. reflexivity.
Qed.

(** ** Rounding to two decimals *)





(** ** Amounts of a schedule *)

(** With a non-negative annual amount and a start at or above the floor,
    no amount is negative and none exceeds the annual amount. *)
Lemma unrounded_schedule_amounts d k rows : forall prev,
  (0 <= d)%Q -> (k <= prev)%Q ->
  unrounded_schedule d k prev rows ->
  Forall (fun r => (0 <= r_depreciation r <= d)%Q) rows.
Proof.
  induction rows as [|r rows IH]; intros prev Hd Hk H.
  - constructor.
  - destruct H as (Hv & Hr & Hrest).
    assert (Hlo : (0 <= r_depreciation r)%Q).
    { rewrite Hv. apply py_min_glb; lra. }
    assert (Hhi : (r_depreciation r <= prev - k)%Q).
    { rewrite Hv. apply py_min_le_r. }
    constructor.
    + split; [exact Hlo|]. rewrite Hv. apply py_min_le_l.
    + apply (IH (r_remaining_amount r)); [exact Hd| |exact Hrest].
      rewrite Hr. lra.
Qed.

Section UniformRun.

Variable rnd : Q -> Q.


End UniformRun.

Lemma last_in {A : Type} (l : list A) : forall x : A, In (last l x) (x :: l).
Proof.
  induction l as [|y l IH]; intro x.
  - left. reflexivity.
  - rewrite last_cons_default. right. apply IH.
Qed.

(** ** What one call does *)

Lemma calculate_depreciation_none rnd a a' :
  calculate_depreciation_with rnd a = Return (None, a') ->
  a' = a /\ fst (validate a) = false.
Proof.
  intro H.
  unfold calculate_depreciation_with, straight_line_depreciation in H.
  destruct (fst (validate a)); simpl in H.
  - destruct (life_years a =? 0)%Z; simpl in H; [discriminate|].
    destruct (last_depr_date a); [|discriminate].
    destruct (depreciation_loop _ _ _ _ _). discriminate.
  - injection H as <-. auto.
Qed.



(** The rows of a call are those of consecutive calendar years, starting at
    the year of the last depreciation date the object had on entry, and each
    row is dated 31 December of its year. *)
Theorem schedule_years (a : Asset) (rows : list ReportRow) (a' : Asset) :
  calculate_depreciation a = Return (Some rows, a') ->
  exists d0,
    last_depr_date a = Some d0
    /\ map r_year rows
       = py_range (year d0) (year d0 + Z.of_nat (List.length rows))
    /\ Forall (fun r => r_last_depr_date r = mkdate (r_year r) 12 31) rows.
Proof.
  intro H. apply calculate_depreciation_returns in H.
  destruct H as (_ & _ & d0 & Hd & -> & _).
  exists d0. split; [exact Hd|]. split.
  - rewrite depreciation_loop_years. apply firstn_py_range.
    rewrite <- (py_range_length (year d0) (life_years a)).
    apply depreciation_loop_length.
  - eapply Forall_impl; [|apply depreciation_loop_row_fields].
    intros r Hr. simpl in Hr. tauto.
Qed.

Lemma schedule_years_witness :
  exists rows a',
    calculate_depreciation A004 = Return (Some rows, a')
    /\ exists d0,
         last_depr_date A004 = Some d0
         /\ map r_year rows
            = py_range (year d0) (year d0 + Z.of_nat (List.length rows))
         /\ Forall (fun r => r_last_depr_date r = mkdate (r_year r) 12 31) rows.
Proof.
  destruct (calculate_depreciation A004) as [[[rows|] a']|e] eqn:E;
    try (vm_compute in E; discriminate).
  exists rows, a'. split; [reflexivity|].
  exact (schedule_years A004 rows a' E).
Defined.

(** A call assigns only [remaining_amount] and [last_depr_date]: the other
    six fields of the object are as before, and every row carries the
    object's identifier, purchase date, cost, residual value and life. *)
Theorem schedule_frame (a : Asset) (data : option (list ReportRow)) (a' : Asset) :
  calculate_depreciation a = Return (data, a') ->
  item_no a' = item_no a /\ item_type a' = item_type a
  /\ purchase_date a' = purchase_date a /\ cost a' = cost a
  /\ carcass_value a' = carcass_value a /\ life_years a' = life_years a
  /\ Forall (fun r => r_item_no r = item_no a
                      /\ r_purchase_date r = purchase_date a
                      /\ r_cost r = cost a
                      /\ r_carcass_value r = carcass_value a
                      /\ r_life_years r = life_years a)
            (rows_of data).
Proof.
  intro H. destruct data as [rows|].
  - apply calculate_depreciation_returns in H.
    destruct H as (_ & _ & d0 & _ & -> & ->).
    destruct (depreciation_loop_frame py_round2
                ((cost a - carcass_value a) / inject_Z (life_years a))%Q
                (py_range (year d0) (year d0 + life_years a)) a)
      as (H1 & H2 & H3 & H4 & H5 & H6 & _).
    repeat split; try assumption.
    eapply Forall_impl; [|apply depreciation_loop_row_fields].
    intros r Hr. simpl in Hr. simpl. tauto.
  - apply calculate_depreciation_none in H. destruct H as [-> _].
    repeat split. constructor.
Qed.

Lemma schedule_frame_witness :
  exists data a',
    calculate_depreciation A001 = Return (data, a')
    /\ item_no a' = item_no A001 /\ item_type a' = item_type A001
    /\ purchase_date a' = purchase_date A001 /\ cost a' = cost A001
    /\ carcass_value a' = carcass_value A001 /\ life_years a' = life_years A001
    /\ Forall (fun r => r_item_no r = item_no A001
                        /\ r_purchase_date r = purchase_date A001
                        /\ r_cost r = cost A001
                        /\ r_carcass_value r = carcass_value A001
                        /\ r_life_years r = life_years A001)
              (rows_of data).
Proof.
  destruct (calculate_depreciation A001) as [[data a']|e] eqn:E;
    try (vm_compute in E; discriminate).
  exists data, a'. split; [reflexivity|].
  exact (schedule_frame A001 data a' E).
Defined.

(** A call that emits no row leaves the whole object as it was; a call that
    emits rows leaves it dated 31 December of the year of the last row. *)
Theorem schedule_last_date (a : Asset) (rows : list ReportRow) (a' : Asset) :
  calculate_depreciation a = Return (Some rows, a') ->
  match rows with
  | [] => a' = a
  | r :: rest => last_depr_date a' = Some (mkdate (r_year (last rest r)) 12 31)
  end.
Proof.
  intro H. apply calculate_depreciation_returns in H.
  destruct H as (_ & _ & d0 & _ & -> & ->).
  set (d := ((cost a - carcass_value a) / inject_Z (life_years a))%Q).
  set (ys := py_range (year d0) (year d0 + life_years a)).
  pose proof (depreciation_loop_last_date py_round2 d ys a) as Hlast.
  pose proof (depreciation_loop_row_fields py_round2 d ys a) as Hfields.
  cbv zeta in Hlast.
  destruct (fst (depreciation_loop py_round2 d ys a [])) as [|r rest];
    [exact Hlast|].
  rewrite Hlast. f_equal.
  rewrite Forall_forall in Hfields.
  apply (Hfields (last rest r) (last_in rest r)).
Qed.

Lemma schedule_last_date_witness :
  exists r rest a',
    calculate_depreciation A001 = Return (Some (r :: rest), a')
    /\ last_depr_date a' = Some (mkdate (r_year (last rest r)) 12 31).
Proof.
  destruct (calculate_depreciation A001) as [[[[|r rest]|] a']|e] eqn:E;
    try (vm_compute in E; discriminate).
  exists r, rest, a'. split; [reflexivity|].
  exact (schedule_last_date A001 (r :: rest) a' E).
Defined.

(** A second call on the same object that still emits rows starts at the
    calendar year of the last row of the first call: that year is scheduled
    twice. *)
Theorem rescheduling_repeats_year (a a1 a2 : Asset) (r1 r2 : ReportRow)
    (rows1 rows2 : list ReportRow) :
  calculate_depreciation a = Return (Some (r1 :: rows1), a1) ->
  calculate_depreciation a1 = Return (Some (r2 :: rows2), a2) ->
  r_year r2 = r_year (last rows1 r1).
Proof.
  intros H1 H2.
  apply calculate_depreciation_returns in H1.
  destruct H1 as (_ & _ & d0 & _ & Hrows1 & ->).
  pose proof (depreciation_loop_last_date py_round2
                ((cost a - carcass_value a) / inject_Z (life_years a))%Q
                (py_range (year d0) (year d0 + life_years a)) a) as Hlast.
  pose proof (depreciation_loop_row_fields py_round2
                ((cost a - carcass_value a) / inject_Z (life_years a))%Q
                (py_range (year d0) (year d0 + life_years a)) a) as Hfields.
  cbv zeta in Hlast. rewrite <- Hrows1 in Hlast, Hfields.
  rewrite Forall_forall in Hfields.
  destruct (Hfields _ (last_in rows1 r1)) as (_ & _ & _ & _ & _ & Hdate).
  rewrite Hdate in Hlast.
  apply calculate_depreciation_returns in H2.
  destruct H2 as (_ & _ & d1 & Hd1 & Hrows2 & _).
  rewrite Hlast in Hd1. injection Hd1 as <-.
  pose proof (f_equal (map r_year) Hrows2) as Hyears.
  rewrite depreciation_loop_years, <- Hrows2 in Hyears.
  cbn [map List.length year] in Hyears.
  unfold py_range in Hyears.
  destruct (Z.to_nat _) as [|n] in Hyears; [discriminate|].
  cbn [seq map firstn] in Hyears. injection Hyears as Hy _.
  rewrite Hy. cbn [Z.of_nat]. lia.
Qed.

Lemma rescheduling_repeats_year_witness :
  let a := Asset_init "A1" "FA" (Some (mkdate 2020 1 1)) 100 0 2 None (Some 300) in
  exists r1 rows1 a1 r2 rows2 a2,
    calculate_depreciation a = Return (Some (r1 :: rows1), a1)
    /\ calculate_depreciation a1 = Return (Some (r2 :: rows2), a2)
    /\ r_year r2 = r_year (last rows1 r1)
    /\ r_year r2 = 2021%Z.
Proof.
  intro a.
  destruct (calculate_depreciation a) as [[[[|r1 rows1]|] a1]|e] eqn:E1;
    try (vm_compute in E1; discriminate).
  destruct (calculate_depreciation a1) as [[[[|r2 rows2]|] a2]|e] eqn:E2;
    try (injection E1 as _ _ <-; vm_compute in E2; discriminate).
  exists r1, rows1, a1, r2, rows2, a2.
  split; [reflexivity|]. split; [exact E2|].
  split; [exact (rescheduling_repeats_year a a1 a2 r1 r2 rows1 rows2 E1 E2)|].
  injection E1 as _ _ <-. vm_compute in E2. injection E2 as <- _ _. reflexivity.
Defined.

(** ** Amounts *)



(** For an asset with [carcass_value <= cost] entered at or above its floor,
    no row takes a negative amount and none takes more than the annual
    amount [(cost - carcass_value) / life_years]. *)
Theorem schedule_amount_bounds (a : Asset) (raw : list ReportRow) (a' : Asset) :
  (carcass_value a <= cost a)%Q -> (carcass_value a <= remaining_amount a)%Q ->
  Main.calculate_depreciation a = Return (Some raw, a') ->
  Forall (fun r => (0 <= r_depreciation r
                    <= (cost a - carcass_value a) / inject_Z (life_years a))%Q)
         raw.
Proof.
  intros Hc Hk H.
  destruct (Main_calculate_depreciation_schedule a raw a' H) as (Hsched & _).
  destruct raw as [|r0 raw0]; [constructor|].
  apply (unrounded_schedule_amounts _ _ _ _) with (3 := Hsched); [|exact Hk].
  apply annual_amount_nonneg; [|exact Hc].
  apply calculate_depreciation_returns in H.
  destruct H as (_ & Hl0 & d0 & _ & Hrows & _).
  destruct (Z_le_gt_dec (life_years a) 0) as [Hle|Hgt]; [|lia].
  rewrite py_range_nil in Hrows by exact Hle. discriminate.
Qed.

Lemma schedule_amount_bounds_witness :
  exists raw a',
    Main.calculate_depreciation A004 = Return (Some raw, a')
    /\ Forall (fun r => (0 <= r_depreciation r
                         <= (cost A004 - carcass_value A004)
                            / inject_Z (life_years A004))%Q)
              raw.
Proof.
  destruct (Main.calculate_depreciation A004) as [[[raw|] a']|e] eqn:E;
    try (vm_compute in E; discriminate).
  exists raw, a'. split; [reflexivity|].
  apply (schedule_amount_bounds A004 raw a'); [| |exact E];
    vm_compute; discriminate.
Defined.







(** ** Trimming and lower-casing *)

Lemma lstrip_all_space (p : string) : all_space p = true -> lstrip p = "".
Proof.
  induction p as [|c p IH]; intro H; [reflexivity|].
  simpl in *. apply andb_true_iff in H. destruct H as [-> H]. auto.
Qed.

Lemma rstrip_all_space (q : string) : all_space q = true -> rstrip q = "".
Proof.
  induction q as [|c q IH]; intro H; [reflexivity|].
  simpl in *. apply andb_true_iff in H. destruct H as [Hc H].
  rewrite (IH H), Hc. reflexivity.
Qed.

Lemma lstrip_app_space (p s : string) :
  all_space p = true -> lstrip (p ++ s) = lstrip s.
Proof.
  induction p as [|c p IH]; intro H; [reflexivity|].
  simpl in *. apply andb_true_iff in H. destruct H as [-> H]. auto.
Qed.

Lemma rstrip_app_space (s q : string) :
  all_space q = true -> rstrip (s ++ q) = rstrip s.
Proof.
  intro H. induction s as [|c s IH].
  - simpl. apply rstrip_all_space. exact H.
  - simpl. rewrite IH. reflexivity.
Qed.

Lemma lstrip_app_r (s q : string) :
  lstrip (s ++ q) = match lstrip s with
                    | EmptyString => lstrip q
                    | String _ _ => lstrip s ++ q
                    end.
Proof.
  induction s as [|c s IH]; [simpl; destruct (lstrip q); reflexivity|].
  simpl. destruct (is_space c); [exact IH|reflexivity].
Qed.

(** White space around a string does not change what [strip] returns. *)
Lemma strip_padding (p s q : string) :
  all_space p = true -> all_space q = true -> strip (p ++ s ++ q) = strip s.
Proof.
  intros Hp Hq. unfold strip.
  rewrite lstrip_app_space by exact Hp.
  rewrite lstrip_app_r.
  destruct (lstrip s) as [|c t] eqn:E.
  - rewrite lstrip_all_space by exact Hq. reflexivity.
  - apply rstrip_app_space. exact Hq.
Qed.

Lemma is_space_lower_char (c : ascii) : is_space (lower_char c) = is_space c.
Proof.
  destruct c as [[] [] [] [] [] [] [] []]; reflexivity.
Qed.

Lemma lower_char_idem (c : ascii) : lower_char (lower_char c) = lower_char c.
Proof.
  destruct c as [[] [] [] [] [] [] [] []]; reflexivity.
Qed.

Lemma lower_idem (s : string) : lower (lower s) = lower s.
Proof.
  induction s as [|c s IH]; [reflexivity|].
  simpl. rewrite lower_char_idem, IH. reflexivity.
Qed.

Lemma lower_lstrip (s : string) : lstrip (lower s) = lower (lstrip s).
Proof.
  induction s as [|c s IH]; [reflexivity|].
  simpl. rewrite is_space_lower_char.
  destruct (is_space c); [exact IH|reflexivity].
Qed.

Lemma lower_rstrip (s : string) : rstrip (lower s) = lower (rstrip s).
Proof.
  induction s as [|c s IH]; [reflexivity|].
  simpl. rewrite IH. destruct (rstrip s) as [|c' t]; simpl.
  - rewrite is_space_lower_char. destruct (is_space c); reflexivity.
  - reflexivity.
Qed.

Lemma lower_strip (s : string) : strip (lower s) = lower (strip s).
Proof. unfold strip. rewrite lower_lstrip, lower_rstrip. reflexivity. Qed.

Lemma str_truthy_lower (s : string) : str_truthy (lower s) = str_truthy s.
Proof. destruct s; reflexivity. Qed.

Lemma strip_nonempty_truthy (s : string) :
  str_truthy (strip s) = true -> str_truthy s = true.
Proof. destruct s; [discriminate|reflexivity]. Qed.

Lemma item_filter_given_strip (f : string) :
  item_filter_given (Some f) = str_truthy (strip f).
Proof.
  unfold item_filter_given.
  destruct (str_truthy (strip f)) eqn:E.
  - rewrite (strip_nonempty_truthy f E). reflexivity.
  - apply andb_false_r.
Qed.

(** The item filter looks at the filter value and at the identifier only
    through [lower (strip _)]: white space added around either, and
    lower-casing either, changes nothing. *)
Theorem item_filter_ignores_padding_and_case (f p q p' q' : string) (a b : Asset) :
  all_space p = true -> all_space q = true ->
  all_space p' = true -> all_space q' = true ->
  item_no b = p' ++ lower (item_no a) ++ q' ->
  item_filter_skips (Some (p ++ lower f ++ q)) b = item_filter_skips (Some f) a.
Proof.
  intros Hp Hq Hp' Hq' Hb.
  unfold item_filter_skips, item_mismatch.
  rewrite !item_filter_given_strip.
  rewrite Hb, !strip_padding by assumption.
  rewrite !lower_strip, !lower_idem, str_truthy_lower. reflexivity.
Qed.

Lemma item_filter_ignores_padding_and_case_witness :
  item_filter_skips (Some ("  " ++ lower "A004" ++ " "))
    (Asset_init (" " ++ lower "A004" ++ "   ") "FA" (Some (mkdate 2022 3 15))
                15000 2000 6 None None)
  = item_filter_skips (Some "A004") A004.
Proof.
  apply (item_filter_ignores_padding_and_case "A004" "  " " " " " "   "); reflexivity.
Defined.

(** ** The report loop as a whole *)

Lemma report_loop_cons f range i rest (s : store) acc :
  report_loop f range (i :: rest) s acc =
  if item_filter_skips f (s i) then report_loop f range rest s acc
  else
    skip <- date_filter_skips range (s i) ;;
    if (skip : bool) then report_loop f range rest s acc
    else
      r <- calculate_depreciation (s i) ;;
      report_loop f range rest (store_set s i (snd r)) (extend_if acc (fst r)).
Proof. reflexivity. Qed.

(** Processing a list is processing a first part and then the rest, from
    the store and the rows the first part leaves; an exception in the first
    part ends the whole. *)
Lemma report_loop_app f range (l1 l2 : list nat) : forall (s : store) acc,
  report_loop f range (l1 ++ l2)%list s acc =
  (x <- report_loop f range l1 s acc ;;
   report_loop f range l2 (snd x) (fst x)).
Proof.
  induction l1 as [|i l1 IH]; intros s acc.
  - reflexivity.
  - change ((i :: l1) ++ l2)%list with (i :: (l1 ++ l2))%list.
    rewrite !report_loop_cons.
    destruct (item_filter_skips f (s i)); [apply IH|].
    destruct (date_filter_skips range (s i)) as [[|]|e]; simpl;
      [apply IH| |reflexivity].
    destruct (calculate_depreciation (s i)) as [[data a1]|e]; simpl;
      [apply IH|reflexivity].
Qed.

(** The rows collected so far stay in front: a run from [acc] is the run
    from no rows with [acc] put before its rows. *)
Lemma report_loop_acc f range (l : list nat) : forall (s : store) acc,
  report_loop f range l s acc =
  (x <- report_loop f range l s [] ;; Return ((acc ++ fst x)%list, snd x)).
Proof.
  induction l as [|i l IH]; intros s acc.
  - simpl. rewrite app_nil_r. reflexivity.
  - rewrite !report_loop_cons.
    destruct (item_filter_skips f (s i)); [apply IH|].
    destruct (date_filter_skips range (s i)) as [[|]|e]; simpl;
      [apply IH| |reflexivity].
    destruct (calculate_depreciation (s i)) as [[data a1]|e]; simpl;
      [|reflexivity].
    rewrite IH. rewrite (IH _ (extend_if [] data)).
    destruct (report_loop f range l (store_set s i a1) []) as [[rows s1]|e];
      simpl; [|reflexivity].
    rewrite !extend_if_rows_of. simpl. rewrite app_assoc. reflexivity.
Qed.

(** A filter value that is empty or all white space filters nothing: the
    report is the one without an item filter. *)
Theorem blank_item_filter_is_no_filter (f filename : string) range
    (assets : list nat) (s : store) :
  strip f = "" ->
  generate_depreciation_report assets filename (Some f) range s
  = generate_depreciation_report assets filename None range s.
Proof.
  intro Hf. unfold generate_depreciation_report. f_equal.
  assert (Hskip : forall a, item_filter_skips (Some f) a = false).
  { intro a. unfold item_filter_skips. rewrite item_filter_given_strip, Hf.
    reflexivity. }
  generalize (@nil ReportRow) as acc. revert s.
  induction assets as [|i rest IH]; intros s acc; [reflexivity|].
  rewrite !report_loop_cons, Hskip. simpl item_filter_skips.
  destruct (date_filter_skips range (s i)) as [[|]|e]; simpl;
    [apply IH| |reflexivity].
  destruct (calculate_depreciation (s i)) as [[data a1]|e]; simpl;
    [apply IH|reflexivity].
Qed.

Lemma blank_item_filter_is_no_filter_witness :
  generate_depreciation_report [0; 3]%nat "depreciation_report.csv"
    (Some "   ") None sample_store
  = generate_depreciation_report [0; 3]%nat "depreciation_report.csv"
      None None sample_store.
Proof.
  apply (blank_item_filter_is_no_filter "   "). reflexivity.
Defined.

Lemma same_static_refl a : same_static a a.
Proof. unfold same_static. tauto. Qed.

Lemma same_static_trans c b a :
  same_static c b -> same_static b a -> same_static c a.
Proof.
  unfold same_static. intros (H1 & H2 & H3 & H4 & H5 & H6) (G1 & G2 & G3 & G4 & G5 & G6).
  repeat split; congruence.
Qed.


Lemma same_static_filters f range b a :
  same_static b a ->
  item_filter_skips f b = item_filter_skips f a
  /\ date_filter_skips range b = date_filter_skips range a.
Proof.
  intros (H1 & _ & H3 & _). split.
  - unfold item_filter_skips, item_mismatch. rewrite H1. reflexivity.
  - unfold date_filter_skips. rewrite H3. reflexivity.
Qed.

Lemma calculate_depreciation_static rnd a data a1 :
  calculate_depreciation_with rnd a = Return (data, a1) ->
  same_static a1 a /\ (wf_asset a -> wf_asset a1).
Proof.
  intro H. split.
  - destruct data as [rows|].
    + apply calculate_depreciation_returns in H.
      destruct H as (_ & _ & d0 & _ & _ & ->).
      destruct (depreciation_loop_frame rnd
                  ((cost a - carcass_value a) / inject_Z (life_years a))%Q
                  (py_range (year d0) (year d0 + life_years a)) a)
        as (H1 & H2 & H3 & H4 & H5 & H6 & _).
      unfold same_static. tauto.
    + apply calculate_depreciation_none in H. destruct H as [-> _].
      apply same_static_refl.
  - intro Hw. eapply calculate_depreciation_wf; eassumption.
Qed.

Lemma store_set_same (s : store) i a j : j <> i -> store_set s i a j = s j.
Proof.
  intro H. unfold store_set. destruct (Nat.eqb_spec j i); [contradiction|reflexivity].
Qed.


Lemma report_loop_frame f range assets : forall (s s' : store) acc rows,
  report_loop f range assets s acc = Return (rows, s') ->
  (forall j, ~ In j assets -> s' j = s j)
  /\ (forall j, same_static (s' j) (s j))
  /\ (forall j, wf_asset (s j) -> wf_asset (s' j)).
Proof.
  induction assets as [|i rest IH]; intros s s' acc rows H.
  - simpl in H. injection H as _ <-.
    split; [|split]; auto using same_static_refl.
  - rewrite report_loop_cons in H.
    assert (Hskipcase : forall rows0,
              report_loop f range rest s rows0 = Return (rows, s') ->
              (forall j, ~ In j (i :: rest) -> s' j = s j)
              /\ (forall j, same_static (s' j) (s j))
              /\ (forall j, wf_asset (s j) -> wf_asset (s' j))).
    { intros rows0 H0. destruct (IH _ _ _ _ H0) as (F1 & F2 & F3).
      split; [|split]; [|exact F2|exact F3].
      intros j Hj. apply F1. intro Hin. apply Hj. right. exact Hin. }
    destruct (item_filter_skips f (s i)); [eapply Hskipcase; exact H|].
    destruct (date_filter_skips range (s i)) as [[|]|e]; simpl in H;
      [eapply Hskipcase; exact H| |discriminate].
    destruct (calculate_depreciation (s i)) as [[data a1]|e] eqn:Hcalc;
      simpl in H; [|discriminate].
    apply calculate_depreciation_static in Hcalc. destruct Hcalc as [Hst Hwf].
    destruct (IH _ _ _ _ H) as (F1 & F2 & F3).
    split; [|split].
    + intros j Hj. rewrite F1 by (intro Hin; apply Hj; right; exact Hin).
      apply store_set_same. intro E. apply Hj. left. symmetry. exact E.
    + intro j. eapply same_static_trans; [apply F2|].
      unfold store_set. destruct (Nat.eqb_spec j i) as [->|_];
        [exact Hst|apply same_static_refl].
    + intros j Hw. apply F3. unfold store_set.
      destruct (Nat.eqb_spec j i) as [->|_]; [apply Hwf; exact Hw|exact Hw].
Qed.

(** A report changes no object that is not listed, and of the listed ones
    only [remaining_amount] and [last_depr_date]. *)
Theorem report_frame (assets : list nat) (filename : string) f range
    (s s' : store) (res : report_result) :
  generate_depreciation_report assets filename f range s = Return (res, s') ->
  (forall j, ~ In j assets -> s' j = s j)
  /\ (forall j, same_static (s' j) (s j)).
Proof.
  intro H. unfold generate_depreciation_report in H.
  destruct (report_loop f range assets s []) as [[rows s1]|e] eqn:Hloop;
    simpl in H; [|discriminate].
  assert (Hs : s' = s1) by (destruct rows; injection H as _ <-; reflexivity).
  subst s'. destruct (report_loop_frame _ _ _ _ _ _ _ Hloop) as (F1 & F2 & _).
  auto.
Qed.

Lemma report_frame_witness :
  exists res s',
    generate_depreciation_report [0]%nat "depreciation_report.csv" None None
      sample_store = Return (res, s')
    /\ s' 3%nat = sample_store 3%nat
    /\ same_static (s' 0%nat) (sample_store 0%nat).
Proof.
  destruct (generate_depreciation_report [0]%nat "depreciation_report.csv" None None
              sample_store) as [[res s']|e] eqn:E;
    [|vm_compute in E; discriminate].
  exists res, s'. split; [reflexivity|].
  destruct (report_frame _ _ _ _ _ _ _ E) as [F1 F2].
  split; [|apply F2].
  apply F1. intros [H|[]]. discriminate.
Defined.

(** ** Exceptions of a report *)






(** ** Distinct objects: the report is the concatenation of the schedules *)

Lemma report_loop_ext f range l : forall (s1 s2 : store) acc,
  (forall j, In j l -> s1 j = s2 j) ->
  (x <- report_loop f range l s1 acc ;; Return (fst x))
  = (x <- report_loop f range l s2 acc ;; Return (fst x)).
Proof.
  induction l as [|i rest IH]; intros s1 s2 acc Hagree; [reflexivity|].
  rewrite !report_loop_cons.
  assert (Hi : s1 i = s2 i) by (apply Hagree; left; reflexivity).
  assert (Hrest : forall j, In j rest -> s1 j = s2 j)
    by (intros j Hj; apply Hagree; right; exact Hj).
  rewrite Hi.
  destruct (item_filter_skips f (s2 i)); [apply IH; exact Hrest|].
  destruct (date_filter_skips range (s2 i)) as [[|]|e]; simpl;
    [apply IH; exact Hrest| |reflexivity].
  destruct (calculate_depreciation (s2 i)) as [[data a1]|e]; simpl;
    [|reflexivity].
  apply IH. intros j Hj. unfold store_set.
  destruct (Nat.eqb j i); [reflexivity|apply Hrest; exact Hj].
Qed.

Lemma report_loop_rows_concat f range assets : forall (s s' : store) rows,
  NoDup assets ->
  report_loop f range assets s [] = Return (rows, s') ->
  rows = flat_map (asset_rows f range s) assets.
Proof.
  induction assets as [|i rest IH]; intros s s' rows Hnd H.
  - simpl in H. injection H as <- _. reflexivity.
  - inversion Hnd as [|? ? Hnotin Hnd']; subst.
    change (i :: rest) with ([i] ++ rest)%list in H.
    rewrite report_loop_app in H.
    destruct (report_loop f range [i] s []) as [[r1 s1]|e] eqn:H1;
      simpl in H; [|discriminate].
    rewrite report_loop_acc in H.
    destruct (report_loop f range rest s1 []) as [[r2 s2]|e] eqn:H2;
      simpl in H; [|discriminate].
    injection H as <- _.
    cbn [flat_map]. unfold asset_rows at 1. rewrite H1. f_equal.
    destruct (report_loop_frame _ _ _ _ _ _ _ H1) as (F1 & _ & _).
    assert (Hagree : forall j, In j rest -> s1 j = s j).
    { intros j Hj. apply F1. intros [<-|[]]. contradiction. }
    pose proof (report_loop_ext f range rest s1 s [] Hagree) as Hext.
    rewrite H2 in Hext. simpl in Hext.
    destruct (report_loop f range rest s []) as [[r3 s3]|e] eqn:H3;
      simpl in Hext; [|discriminate].
    injection Hext as ->.
    exact (IH _ _ _ Hnd' H3).
Qed.

(** Over pairwise distinct objects, the rows of the report are the rows of
    the single assets, asset after asset in the order of the list. *)
Theorem report_rows_in_list_order (assets : list nat) (filename : string) f range
    (s s' : store) (res : report_result) :
  NoDup assets ->
  generate_depreciation_report assets filename f range s = Return (res, s') ->
  report_rows res = flat_map (asset_rows f range s) assets.
Proof.
  intros Hnd H. unfold generate_depreciation_report in H.
  destruct (report_loop f range assets s []) as [[rows s1]|e] eqn:Hloop;
    simpl in H; [|discriminate].
  assert (Hres : report_rows res = rows).
  { destruct rows as [|r rows]; injection H as <- _; reflexivity. }
  rewrite Hres. eapply report_loop_rows_concat; eassumption.
Qed.

Lemma report_rows_in_list_order_witness :
  exists res s',
    generate_depreciation_report [3; 0]%nat "depreciation_report.csv" None None
      sample_store = Return (res, s')
    /\ report_rows res = flat_map (asset_rows None None sample_store) [3; 0]%nat
    /\ map r_item_no (report_rows res)
       = ["A004"; "A004"; "A004"; "A004"; "A004"; "A004";
          "A001"; "A001"; "A001"; "A001"; "A001"].
Proof.
  destruct (generate_depreciation_report [3; 0]%nat "depreciation_report.csv"
              None None sample_store) as [[res s']|e] eqn:E;
    [|vm_compute in E; discriminate].
  exists res, s'. split; [reflexivity|]. split.
  - apply (report_rows_in_list_order [3; 0]%nat "depreciation_report.csv"
             None None sample_store s' res); [|exact E].
    repeat constructor; simpl; intuition discriminate.
  - vm_compute in E. injection E as <- _. reflexivity.
Defined.

(** ** Reports over objects already scheduled *)



Lemma settled_same_static f range b a :
  same_static b a -> spent a -> (spent a -> spent b) ->
  settled f range a -> settled f range b.
Proof.
  intros Hst _ Hsp Hset.
  destruct (same_static_filters f range b a Hst) as [E1 E2].
  unfold settled in *. rewrite E1, E2.
  destruct Hset as [H|[H|[H Hs]]]; auto.
Qed.











(** ** An inverted date range *)

Lemma date_ltb_false_trans (pd sd ed : date) :
  date_ltb pd sd = false -> date_lt ed sd -> date_ltb ed pd = true.
Proof.
  intros H1 H2. apply date_ltb_spec.
  assert (H1' : ~ date_lt pd sd).
  { intro H. apply date_ltb_spec in H. congruence. }
  unfold date_lt in *. lia.
Qed.

(** With a range whose end is before its start, every asset that has a
    purchase date is skipped: the report has no data and no object is
    touched. *)
Theorem inverted_range_has_no_data (assets : list nat) (filename : string) f
    (sd ed : date) (s : store) :
  date_lt ed sd ->
  (forall i, In i assets -> purchase_date (s i) <> None) ->
  generate_depreciation_report assets filename f (Some (Some sd, Some ed)) s
  = Return (Message "No valid depreciation data available.", s).
Proof.
  intros Hinv Hall. unfold generate_depreciation_report.
  assert (Hloop : report_loop f (Some (Some sd, Some ed)) assets s [] = Return ([], s)).
  { induction assets as [|i rest IH]; [reflexivity|].
    rewrite report_loop_cons.
    assert (Hrest : report_loop f (Some (Some sd, Some ed)) rest s [] = Return ([], s)).
    { apply IH. intros j Hj. apply Hall. right. exact Hj. }
    destruct (item_filter_skips f (s i)); [exact Hrest|].
    specialize (Hall i (or_introl eq_refl)).
    unfold date_filter_skips, py_date_lt, py_date_gt.
    destruct (purchase_date (s i)) as [pd|]; [|contradiction]. simpl.
    destruct (date_ltb pd sd) eqn:E; simpl; [exact Hrest|].
    rewrite (date_ltb_false_trans pd sd ed E Hinv). exact Hrest. }
  rewrite Hloop. reflexivity.
Qed.

Lemma inverted_range_has_no_data_witness :
  generate_depreciation_report [0; 1; 3]%nat "depreciation_report.csv" None
    (Some (Some (mkdate 2023 12 31), Some (mkdate 2022 1 1))) sample_store
  = Return (Message "No valid depreciation data available.", sample_store).
Proof.
  apply (inverted_range_has_no_data [0; 1; 3]%nat "depreciation_report.csv" None
           (mkdate 2023 12 31) (mkdate 2022 1 1) sample_store).
  - vm_compute. left. reflexivity.
  - intros i [<-|[<-|[<-|[]]]]; discriminate.
Defined.

(** ** Reading the uploaded rows *)

Section ReadAssetsFacts.

Variable strptime_date : string -> option date.
Variable py_float : string -> option Q.
Variable py_int : string -> option Z.

(** Reading a file is reading a first part and, unless that part already
    ended the request, the rest. *)
Lemma read_assets_app (pre post : list (list string)) : forall acc,
  read_assets strptime_date py_float py_int (pre ++ post)%list acc =
  match read_assets strptime_date py_float py_int pre acc with
  | AssetsRead l => read_assets strptime_date py_float py_int post l
  | r => r
  end.
Proof.
  induction pre as [|row pre IH]; intro acc; [reflexivity|].
  destruct row as [|x1 [|x2 [|x3 [|x4 [|x5 [|x6 [|x7 row]]]]]]]; try reflexivity.
  cbn [app read_assets].
  destruct (negb (str_truthy (strip x3))); [reflexivity|].
  destruct (strptime_date x3); [|reflexivity].
  destruct (negb (strip x2 =? "FA")); [apply IH|].
  destruct (py_float x4); [|reflexivity].
  destruct (py_float x5); [|reflexivity].
  destruct (py_int x6); [|reflexivity].
  apply IH.
Qed.

Lemma read_assets_invariant (rows : list (list string)) : forall acc l,
  read_assets strptime_date py_float py_int rows acc = AssetsRead l ->
  exists new,
    l = (acc ++ new)%list
    /\ Forall (fun a => strip (item_type a) = "FA"
                        /\ purchase_date a <> None
                        /\ last_depr_date a = purchase_date a
                        /\ remaining_amount a = cost a) new
    /\ map (fun a => (item_no a, item_type a)) new = flat_map fa_row rows.
Proof.
  induction rows as [|row rows IH]; intros acc l H.
  - simpl in H. injection H as <-. exists []. rewrite app_nil_r.
    split; [reflexivity|]. split; [constructor|reflexivity].
  - destruct row as [|x1 [|x2 [|x3 [|x4 [|x5 [|x6 [|x7 row]]]]]]];
      try discriminate.
    cbn [read_assets] in H. cbn [flat_map fa_row].
    destruct (negb (str_truthy (strip x3))); [discriminate|].
    destruct (strptime_date x3) as [d|]; [|discriminate].
    destruct (String.eqb_spec (strip x2) "FA") as [E|NE]; cbn [negb] in H.
    + destruct (py_float x4) as [c|]; [|discriminate].
      destruct (py_float x5) as [k|]; [|discriminate].
      destruct (py_int x6) as [n|]; [|discriminate].
      destruct (IH _ _ H) as (new & -> & Hall & Hmap).
      exists (Asset_init x1 x2 (Some d) c k n None None :: new).
      rewrite <- app_assoc. split; [reflexivity|]. split.
      * constructor; [|exact Hall].
        simpl. repeat split; try assumption; discriminate.
      * cbn [map app]. rewrite Hmap. reflexivity.
    + destruct (IH _ _ H) as (new & -> & Hall & Hmap).
      exists new. auto.
Qed.

(** The assets [index] hands to the report are, in file order, the rows
    whose type is ["FA"] once trimmed, each with the identifier and the
    untrimmed type of its row; every one has a purchase date, its last
    depreciation date is that date and its book value is its cost. *)
Theorem read_assets_builds_fa_rows (rows : list (list string)) (l : list Asset) :
  read_assets strptime_date py_float py_int rows [] = AssetsRead l ->
  map (fun a => (item_no a, item_type a)) l = flat_map fa_row rows
  /\ Forall (fun a => strip (item_type a) = "FA"
                      /\ purchase_date a <> None
                      /\ last_depr_date a = purchase_date a
                      /\ remaining_amount a = cost a) l.
Proof.
  intro H. destruct (read_assets_invariant rows [] l H) as (new & -> & Hall & Hmap).
  simpl. auto.
Qed.

(** A row with a blank purchase date ends the request with the page naming
    its item, whatever its type and its other fields, whatever follows it,
    and whatever assets the rows before it gave. *)
Theorem read_assets_missing_date (pre post : list (list string)) (l : list Asset)
    (n t d c k y : string) :
  read_assets strptime_date py_float py_int pre [] = AssetsRead l ->
  strip d = "" ->
  read_assets strptime_date py_float py_int (pre ++ [n; t; d; c; k; y] :: post)%list []
  = MissingPurchaseDate ("Error: Missing purchase date for item " ++ n ++ ".").
Proof.
  intros Hpre Hd. rewrite read_assets_app, Hpre.
  cbn [read_assets]. rewrite Hd. reflexivity.
Qed.

(** An asset read from a row passes [validate] exactly when its type is
    ["FA"] as written: a row whose type is ["FA"] only after trimming is
    read, and its schedule is [None]. *)
Theorem read_padded_type_is_never_scheduled (rows : list (list string))
    (l : list Asset) (a : Asset) :
  read_assets strptime_date py_float py_int rows [] = AssetsRead l -> In a l ->
  (valid a <-> item_type a = "FA")
  /\ (item_type a <> "FA" -> calculate_depreciation a = Return (None, a)).
Proof.
  intros H Hin.
  destruct (read_assets_invariant rows [] l H) as (new & -> & Hall & _).
  simpl in Hin. rewrite Forall_forall in Hall.
  destruct (Hall a Hin) as (_ & Hp & _). split.
  - rewrite valid_iff. tauto.
  - intro Ht. apply calculate_depreciation_invalid.
    apply not_valid_iff. left. exact Ht.
Qed.



End ReadAssetsFacts.

Lemma read_assets_builds_fa_rows_witness :
  let rows := [["A1"; " FA"; "2020-01-01"; "100"; "10"; "5"];
               ["A2"; "EQ"; "2020-01-01"; "x"; "y"; "z"];
               ["A3"; "FA"; "2021-01-01"; "100"; "10"; "5"]] in
  let read := read_assets (fun _ => Some (mkdate 2020 1 1))
                          (fun _ => Some 100) (fun _ => Some 5%Z) in
  exists l,
    read rows [] = AssetsRead l
    /\ map (fun a => (item_no a, item_type a)) l = [("A1", " FA"); ("A3", "FA")]
    /\ Forall (fun a => strip (item_type a) = "FA"
                        /\ purchase_date a <> None
                        /\ last_depr_date a = purchase_date a
                        /\ remaining_amount a = cost a) l.
Proof.
  intros rows read.
  destruct (read rows []) as [m| |l] eqn:E; try (vm_compute in E; discriminate).
  exists l. split; [reflexivity|].
  exact (read_assets_builds_fa_rows _ _ _ rows l E).
Defined.

Lemma read_assets_missing_date_witness :
  read_assets (fun _ => Some (mkdate 2020 1 1)) (fun _ => Some 100) (fun _ => Some 5%Z)
    ([["A1"; "FA"; "2020-01-01"; "100"; "10"; "5"]]
     ++ ["B7"; "EQ"; "  "; "100"; "10"; "5"]
        :: [["A3"; "FA"; "2021-01-01"; "100"; "10"; "5"]])%list []
  = MissingPurchaseDate ("Error: Missing purchase date for item " ++ "B7" ++ ".").
Proof.
  eapply (read_assets_missing_date (fun _ => Some (mkdate 2020 1 1))
            (fun _ => Some 100) (fun _ => Some 5%Z)
            [["A1"; "FA"; "2020-01-01"; "100"; "10"; "5"]]); reflexivity.
Defined.

Lemma read_padded_type_is_never_scheduled_witness :
  let a := Asset_init "A1" " FA" (Some (mkdate 2020 1 1)) 100 100 5 None None in
  (valid a <-> item_type a = "FA")
  /\ (item_type a <> "FA" -> calculate_depreciation a = Return (None, a)).
Proof.
  intro a.
  apply (read_padded_type_is_never_scheduled (fun _ => Some (mkdate 2020 1 1))
           (fun _ => Some 100) (fun _ => Some 5%Z)
           [["A1"; " FA"; "2020-01-01"; "100"; "10"; "5"]] [a] a).
  - reflexivity.
  - left. reflexivity.
Defined.


(** ** One report after another *)

Lemma generate_report_loop (assets : list nat) (filename : string) f range
    (s s' : store) (res : report_result) :
  generate_depreciation_report assets filename f range s = Return (res, s') ->
  report_loop f range assets s [] = Return (report_rows res, s').
Proof.
  intro H. unfold generate_depreciation_report in H.
  destruct (report_loop f range assets s []) as [[rows s1]|e]; simpl in H;
    [|discriminate].
  destruct rows as [|r rows]; injection H as <- <-; reflexivity.
Qed.

(** The report over a list followed by another has the rows of the report
    over the first list, and after them the rows of the report over the
    second list run on the objects as the first report leaves them; the
    objects end up the same. *)
Theorem report_of_concatenation (l1 l2 : list nat) (filename : string) f range
    (s s1 s2 : store) (res1 res2 : report_result) :
  generate_depreciation_report l1 filename f range s = Return (res1, s1) ->
  generate_depreciation_report l2 filename f range s1 = Return (res2, s2) ->
  exists res,
    generate_depreciation_report (l1 ++ l2)%list filename f range s
    = Return (res, s2)
    /\ report_rows res = (report_rows res1 ++ report_rows res2)%list.
Proof.
  intros H1 H2.
  apply generate_report_loop in H1. apply generate_report_loop in H2.
  unfold generate_depreciation_report.
  rewrite report_loop_app, H1. simpl.
  rewrite report_loop_acc, H2. simpl.
  destruct (report_rows res1 ++ report_rows res2)%list as [|r rows] eqn:E;
    eexists; split; try reflexivity; simpl; auto.
Qed.

Lemma report_of_concatenation_witness :
  exists res1 s1 res2 s2 res,
    generate_depreciation_report [3]%nat "depreciation_report.csv" None None
      sample_store = Return (res1, s1)
    /\ generate_depreciation_report [0]%nat "depreciation_report.csv" None None
         s1 = Return (res2, s2)
    /\ generate_depreciation_report ([3]%nat ++ [0]%nat)%list
         "depreciation_report.csv" None None sample_store = Return (res, s2)
    /\ report_rows res = (report_rows res1 ++ report_rows res2)%list.
Proof.
  destruct (generate_depreciation_report [3]%nat "depreciation_report.csv" None None
              sample_store) as [[res1 s1]|e] eqn:E1;
    [|vm_compute in E1; discriminate].
  destruct (generate_depreciation_report [0]%nat "depreciation_report.csv" None None
              s1) as [[res2 s2]|e] eqn:E2.
  - destruct (report_of_concatenation _ _ _ _ _ _ _ _ _ _ E1 E2) as (res & H & Hrows).
    exists res1, s1, res2, s2, res. auto.
  - exfalso. apply generate_report_loop in E1.
    vm_compute in E1. injection E1 as _ <-. vm_compute in E2. discriminate.
Defined.

(** ** The filters of [tmp/main1.py] *)

Lemma Main1_date_filter_agrees_witness :
  Main1.date_filter_skips
    (Some (Some (mkdate 2022 1 1), Some (mkdate 2023 12 31))) A004
  = date_filter_skips
      (Some (Some (mkdate 2022 1 1), Some (mkdate 2023 12 31))) A004.
Proof.
  apply (Main1_date_filter_agrees A004 (mkdate 2022 3 15)). reflexivity.
Defined.

Lemma Main1_item_filter_stricter_witness :
  item_filter_skips (Some "A004") A004 = false.
Proof.
  apply (Main1_item_filter_stricter "A004" A004). reflexivity.
Defined.
